(** * MDC text field: the foundation and its adapter

    A shallow embedding of [packages/mdc-textfield/foundation.js] (the
    class [MDCTextfieldFoundation]) and of the adapter that
    [packages/mdc-textfield/index.js] hands to it.

    The foundation holds a few flags and talks to its host only through
    the adapter, a JavaScript object whose properties are functions.  A
    property may be absent, and calling an absent property raises a
    [TypeError]; both are kept: an adapter is a record of optional
    capabilities over a host state [W], and a method of the foundation is
    a computation in a state-and-exception monad over the pair of the
    instance and the host. *)

From Stdlib Require Import ZArith Bool Floats.
From stdpp Require Import base option list gmap strings sets pretty.

Local Open Scope Z_scope.
Local Open Scope string_scope.
Local Open Scope list_scope.

(** ** JavaScript values *)

(** The values that reach a truthiness test or a [===] in the two
    source files. *)
Inductive JSVal : Type :=
| VUndefined
| VNull
| VBool (b : bool)
| VNum (n : Z)
| VStr (s : string).

#[global] Instance JSVal_eq_dec : EqDecision JSVal.
Proof. solve_decision. Defined.

(** [ToBoolean]: [undefined], [null], [false], [0] and the empty string
    are falsy. *)
Definition truthy (v : JSVal) : bool :=
  match v with
  | VUndefined | VNull => false
  | VBool b => b
  | VNum n => negb (Z.eqb n 0)
  | VStr s => negb (bool_decide (s = ""))
  end.

(** [a === b] on these values. *)
Definition strict_eq (a b : JSVal) : bool := bool_decide (a = b).

(** ** Completions: a result or a thrown error, with the state reached *)

Inductive Exn : Type :=
| NotAFunction (property : string)
| PropertyOfUndefined (property : string).

Inductive Completion (S A : Type) : Type :=
| Normal (a : A) (s : S)
| Throw (e : Exn) (s : S).
Arguments Normal {S A} a s.
Arguments Throw {S A} e s.

Definition JS (S A : Type) : Type := S -> Completion S A.

Definition ret {S A} (a : A) : JS S A := fun s => Normal a s.

Definition bind {S A B} (m : JS S A) (k : A -> JS S B) : JS S B :=
  fun s => match m s with
           | Normal a s' => k a s'
           | Throw e s' => Throw e s'
           end.

Definition throw {S A} (e : Exn) : JS S A := fun s => Throw e s.

(** The state a computation leaves behind, however it ended: an exception
    does not undo the writes made before it. *)
Definition final {S A} (c : Completion S A) : S :=
  match c with Normal _ s => s | Throw _ s => s end.

Definition completed {S A} (c : Completion S A) : bool :=
  match c with Normal _ _ => true | Throw _ _ => false end.

#[global] Instance JS_ret {S} : MRet (JS S) := fun A a => ret a.
#[global] Instance JS_bind {S} : MBind (JS S) := fun A B k m => bind m k.

(** [xs.forEach(f)]. *)
Fixpoint forEach {S A} (xs : list A) (f : A -> JS S unit) : JS S unit :=
  match xs with
  | [] => mret tt
  | x :: xs' => f x ;; forEach xs' f
  end.

(** ** Numbers and their text

    A JavaScript Number is an IEEE 754 double, here a primitive [float]
    ([x - y] on Numbers is the subtraction of doubles).  A template
    literal turns a Number into text with [Number::toString] in radix
    10: the shortest decimal that reads back as the same double (the
    closest to it if several are as short), written plainly when its
    decimal point falls within 21 digits before or 6 zeros after, and
    with an exponent otherwise. *)
Module Number.

(** The number of digits of the whole number [x >= 1]. *)
Fixpoint count_digits (fuel : nat) (x : Z) : Z :=
  match fuel with
  | O => 1
  | S fuel' => if Z.ltb x 10 then 1 else 1 + count_digits fuel' (x / 10)
  end.

(** The least [t] with [den <= num * 10^t]. *)
Fixpoint count_zeros (fuel : nat) (num den : Z) : Z :=
  match fuel with
  | O => 0
  | S fuel' => if Z.leb den num then 0 else 1 + count_zeros fuel' (num * 10) den
  end.

(** The [n] with [10^(n-1) <= m * 2^e < 10^n]. *)
Definition magnitude (m : positive) (e : Z) : Z :=
  let whole := Z.shiftl (Z.pos m) e in
  if Z.leb 1 whole then count_digits 400 whole
  else 1 - count_zeros 400 (Z.pos m) (2 ^ (- e)).

(** Half the distance from the double [m * 2^e] to the double below it,
    in units of [2^(e-2)]: the doubles are twice as dense below a power
    of two. *)
Definition below (m : positive) (e : Z) : Z :=
  if Pos.eqb m (2 ^ 52) && Z.ltb (-1074) e then 1 else 2.

(** The decimals [s * 10^(n-k)] of [k] digits next to the double
    [m * 2^e] that round to it (to nearest, ties to the even mantissa),
    each with its exponent [n] and its distance from the double.  The
    decimals tried are the two around the double for each of the
    exponents [k + p], [k + p + 1] and [k + p + 2]; everything is
    counted in units of [2^(e-2) * 10^p], scaled to whole numbers. *)
Definition candidates (m : positive) (e k p : Z) : list (Z * Z * Z) :=
  let L := 10 ^ Z.max p 0 * 2 ^ Z.max (- (e - 2)) 0 in
  let R := 2 ^ Z.max (e - 2) 0 * 10 ^ Z.max (- p) 0 in
  let v := 4 * Z.pos m * R in
  let lo := (4 * Z.pos m - below m e) * R in
  let hi := (4 * Z.pos m + 2) * R in
  let near (d : Z) : list (Z * Z * Z) :=
    let s := v / (L * 10 ^ d) in
    (fun s' => (s', k + p + d, Z.abs (s' * 10 ^ d * L - v))) <$> [s; s + 1] in
  let rounds (c : Z * Z * Z) : bool :=
    let x := c.1.1 * 10 ^ (c.1.2 - k - p) * L in
    if Z.even (Z.pos m) then Z.leb lo x && Z.leb x hi else Z.ltb lo x && Z.ltb x hi in
  filter (fun c => 10 ^ (k - 1) ≤ c.1.1 < 10 ^ k ∧ rounds c = true)
         (near 0 ++ near 1 ++ near 2).

(** Of two candidates the closer one, and the even one when they are as
    close. *)
Definition closer (a b : Z * Z * Z) : Z * Z * Z :=
  match Z.compare a.2 b.2 with
  | Lt => a
  | Gt => b
  | Eq => if Z.even a.1.1 then a else b
  end.

(** The digits [s], the exponent [n] and the number of digits [k] of
    the shortest decimal for the double [m * 2^e] of magnitude [n0],
    trying [k], [k + 1], ... in turn. *)
Fixpoint shortest (fuel : nat) (m : positive) (e n0 k : Z) : Z * Z * Z :=
  match candidates m e k (n0 - 1 - k) with
  | c :: cs => let best := foldl closer c cs in (best.1.1, best.1.2, k)
  | [] =>
      match fuel with
      | O => (0, 0, k)
      | S fuel' => shortest fuel' m e n0 (k + 1)
      end
  end.

Fixpoint zeros (n : nat) : string :=
  match n with O => "" | S n' => "0" +:+ zeros n' end.

(** The text of the decimal [s * 10^(n-k)], [s] of [k] digits. *)
Definition format (s n k : Z) : string :=
  let digits := pretty s in
  if Z.leb k n && Z.leb n 21 then digits +:+ zeros (Z.to_nat (n - k))
  else if Z.ltb 0 n && Z.leb n 21
  then String.substring 0 (Z.to_nat n) digits +:+ "."
       +:+ String.substring (Z.to_nat n) (Z.to_nat (k - n)) digits
  else if Z.ltb (-6) n && Z.leb n 0 then "0." +:+ zeros (Z.to_nat (- n)) +:+ digits
  else
    let exponent := (if Z.ltb (n - 1) 0 then "-" else "+") +:+ pretty (Z.abs (n - 1)) in
    if Z.eqb k 1 then digits +:+ "e" +:+ exponent
    else String.substring 0 1 digits +:+ "." +:+ String.substring 1 (Z.to_nat (k - 1)) digits
         +:+ "e" +:+ exponent.

(** [Number::toString(x)] in radix 10. *)
Definition toString (x : float) : string :=
  match Prim2SF x with
  | S754_nan => "NaN"
  | S754_zero _ => "0"
  | S754_infinity s => if s then "-Infinity" else "Infinity"
  | S754_finite s m e =>
      let '(d, n, k) := shortest 17 m e (magnitude m e) 1 in
      (if s then "-" else "") +:+ format d n k
  end.

End Number.

Arguments Number.toString : simpl never.

(** ** Handlers and events *)

(** The five arrow functions the constructor creates.  Each is created
    once per instance, so a function value is identified by the closure
    it is. *)
Inductive Handler : Type :=
| ActivateFocusClosure
| DeactivateFocusClosure
| SetBottomLineTransformOriginClosure
| HandleTextFieldInteractionClosure
| TransitionEndClosure.

#[global] Instance Handler_eq_dec : EqDecision Handler.
Proof. solve_decision. Defined.

(** A DOM element, as far as the two files look at one: its class list,
    its attributes, its listeners (event type and callback, in the order
    of attachment) and the left edge of its bounding rectangle
    ([getBoundingClientRect().left], a Number). *)
Record Element : Type := mkElement {
  classList : gset string;
  attributes : gmap string string;
  listeners : list (string * Handler);
  clientRectLeft : float
}.

(** The properties of an event that the handlers read.  [key], [keyCode]
    and [propertyName] are [undefined] on events that do not carry
    them; [clientX] and [clientY] are Numbers. *)
Record Event : Type := mkEvent {
  evt_type : string;
  evt_target : Element;
  evt_key : JSVal;
  evt_keyCode : JSVal;
  evt_propertyName : JSVal;
  evt_clientX : float;
  evt_clientY : float
}.

(** ** Child controllers and the adapter *)

(** What the foundation uses of the input controller.  [disabled] is the
    property read by [handleTextFieldInteraction_]; [isDisabled] is the
    method the component's getter calls. *)
Module Input.
Record Foundation (W : Type) : Type := mk {
  getValue : W -> string;
  isBadInput : W -> bool;
  checkValidity : W -> bool;
  setDisabled : bool -> W -> W;
  isDisabled : W -> bool;
  disabled : W -> JSVal
}.
Arguments mk {W}.
Arguments getValue {W}.
Arguments isBadInput {W}.
Arguments checkValidity {W}.
Arguments setDisabled {W}.
Arguments isDisabled {W}.
Arguments disabled {W}.
End Input.

(** What the foundation uses of the label controller. *)
Module Label.
Record Foundation (W : Type) : Type := mk {
  floatLabel : W -> W;
  deactivateFocus : bool -> W -> W;
  changeValidity : bool -> W -> W
}.
Arguments mk {W}.
Arguments floatLabel {W}.
Arguments deactivateFocus {W}.
Arguments changeValidity {W}.
End Label.

(** The adapter object.  A field is [None] when the object has no such
    property.  A getter that returns [undefined] or [null] yields
    [None].  [getBottomLineFoundation] and [getHelpTextFoundation], which
    [adapter.js] declares and the component supplies, are called nowhere
    in the foundation and are left out. *)
Record Adapter (W : Type) : Type := mkAdapter {
  addClass : option (string -> W -> W);
  removeClass : option (string -> W -> W);
  setIconAttr : option (string -> string -> W -> W);
  eventTargetHasClass : option (Element -> string -> W -> JSVal);
  registerTextFieldInteractionHandler : option (string -> Handler -> W -> W);
  deregisterTextFieldInteractionHandler : option (string -> Handler -> W -> W);
  notifyIconAction : option (W -> W);
  addClassToBottomLine : option (string -> W -> W);
  removeClassFromBottomLine : option (string -> W -> W);
  addClassToHelptext : option (string -> W -> W);
  removeClassFromHelptext : option (string -> W -> W);
  helptextHasClass : option (string -> W -> JSVal);
  registerTransitionEndHandler : option (Handler -> W -> W);
  deregisterTransitionEndHandler : option (Handler -> W -> W);
  setBottomLineAttr : option (string -> string -> W -> W);
  setHelptextAttr : option (string -> string -> W -> W);
  removeHelptextAttr : option (string -> W -> W);
  getInputFoundation : option (W -> option (Input.Foundation W));
  getLabelFoundation : option (W -> option (Label.Foundation W));
  registerInputInteractionHandler : option (string -> Handler -> W -> W);
  deregisterInputInteractionHandler : option (string -> Handler -> W -> W)
}.
Arguments mkAdapter {W}.
Arguments addClass {W}.
Arguments removeClass {W}.
Arguments setIconAttr {W}.
Arguments eventTargetHasClass {W}.
Arguments registerTextFieldInteractionHandler {W}.
Arguments deregisterTextFieldInteractionHandler {W}.
Arguments notifyIconAction {W}.
Arguments addClassToBottomLine {W}.
Arguments removeClassFromBottomLine {W}.
Arguments addClassToHelptext {W}.
Arguments removeClassFromHelptext {W}.
Arguments helptextHasClass {W}.
Arguments registerTransitionEndHandler {W}.
Arguments deregisterTransitionEndHandler {W}.
Arguments setBottomLineAttr {W}.
Arguments setHelptextAttr {W}.
Arguments removeHelptextAttr {W}.
Arguments getInputFoundation {W}.
Arguments getLabelFoundation {W}.
Arguments registerInputInteractionHandler {W}.
Arguments deregisterInputInteractionHandler {W}.

(** The object literal [{}]. *)
Definition emptyAdapter {W} : Adapter W :=
  mkAdapter None None None None None None None None None None None None
            None None None None None None None None None.

(** [Object.assign(target, source)]: every property of [source]
    overwrites the one of [target]; the others stay. *)
Definition Object_assign {W} (target source : Adapter W) : Adapter W :=
  {| addClass := addClass source ∪ addClass target;
     removeClass := removeClass source ∪ removeClass target;
     setIconAttr := setIconAttr source ∪ setIconAttr target;
     eventTargetHasClass := eventTargetHasClass source ∪ eventTargetHasClass target;
     registerTextFieldInteractionHandler :=
       registerTextFieldInteractionHandler source ∪ registerTextFieldInteractionHandler target;
     deregisterTextFieldInteractionHandler :=
       deregisterTextFieldInteractionHandler source ∪ deregisterTextFieldInteractionHandler target;
     notifyIconAction := notifyIconAction source ∪ notifyIconAction target;
     addClassToBottomLine := addClassToBottomLine source ∪ addClassToBottomLine target;
     removeClassFromBottomLine := removeClassFromBottomLine source ∪ removeClassFromBottomLine target;
     addClassToHelptext := addClassToHelptext source ∪ addClassToHelptext target;
     removeClassFromHelptext := removeClassFromHelptext source ∪ removeClassFromHelptext target;
     helptextHasClass := helptextHasClass source ∪ helptextHasClass target;
     registerTransitionEndHandler := registerTransitionEndHandler source ∪ registerTransitionEndHandler target;
     deregisterTransitionEndHandler :=
       deregisterTransitionEndHandler source ∪ deregisterTransitionEndHandler target;
     setBottomLineAttr := setBottomLineAttr source ∪ setBottomLineAttr target;
     setHelptextAttr := setHelptextAttr source ∪ setHelptextAttr target;
     removeHelptextAttr := removeHelptextAttr source ∪ removeHelptextAttr target;
     getInputFoundation := getInputFoundation source ∪ getInputFoundation target;
     getLabelFoundation := getLabelFoundation source ∪ getLabelFoundation target;
     registerInputInteractionHandler :=
       registerInputInteractionHandler source ∪ registerInputInteractionHandler target;
     deregisterInputInteractionHandler :=
       deregisterInputInteractionHandler source ∪ deregisterInputInteractionHandler target |}.

(** ** Constants *)

(** [cssClasses] and [strings] of the text field's [./constants], and
    [strings] of the input controller, are imported by the foundation
    but their modules are not among the sources: the foundation is
    embedded over arbitrary values of them. *)
Record CssClasses : Type := mkCssClasses {
  UPGRADED : string;
  FOCUSED : string;
  DISABLED : string;
  INVALID : string;
  BOTTOM_LINE_ACTIVE : string;
  HELPTEXT_PERSISTENT : string;
  HELPTEXT_VALIDATION_MSG : string;
  TEXT_FIELD_ICON : string
}.

Record Strings : Type := mkStrings {
  ARIA_HIDDEN : string;
  ROLE : string;
  ICON_EVENT : string
}.

Record InputStrings : Type := mkInputStrings {
  FOCUS_EVENT : string;
  BLUR_EVENT : string;
  PRESSED_EVENT : string
}.

(** ** The foundation: [MDCTextfieldFoundation] *)

(** The instance.  [adapter_] is set by the base class's constructor
    ([MDCFoundation]: [this.adapter_ = adapter]).  [receivedUserInput_]
    does not exist until [handleTextFieldInteraction_] writes it.
    [isFocused_] is read by [transitionEnd_]; the constructor does not
    create it and no statement of the class assigns it, so it is
    [undefined] from construction on. *)
Record Foundation (W : Type) : Type := mkFoundation {
  adapter_ : Adapter W;
  useCustomValidityChecking_ : bool;
  inputFocusHandler_ : Handler;
  inputBlurHandler_ : Handler;
  setPointerXOffset_ : Handler;
  textFieldInteractionHandler_ : Handler;
  transitionEndHandler_ : Handler;
  receivedUserInput_ : JSVal;
  isFocused_ : JSVal
}.
Arguments mkFoundation {W}.
Arguments adapter_ {W}.
Arguments useCustomValidityChecking_ {W}.
Arguments inputFocusHandler_ {W}.
Arguments inputBlurHandler_ {W}.
Arguments setPointerXOffset_ {W}.
Arguments textFieldInteractionHandler_ {W}.
Arguments transitionEndHandler_ {W}.
Arguments receivedUserInput_ {W}.
Arguments isFocused_ {W}.

(** [this.useCustomValidityChecking_ = b] *)
Definition set_useCustomValidityChecking_ {W} (b : bool) (f : Foundation W) : Foundation W :=
  mkFoundation (adapter_ f) b (inputFocusHandler_ f) (inputBlurHandler_ f)
    (setPointerXOffset_ f) (textFieldInteractionHandler_ f) (transitionEndHandler_ f)
    (receivedUserInput_ f) (isFocused_ f).

(** [this.receivedUserInput_ = v] *)
Definition set_receivedUserInput_ {W} (v : JSVal) (f : Foundation W) : Foundation W :=
  mkFoundation (adapter_ f) (useCustomValidityChecking_ f) (inputFocusHandler_ f)
    (inputBlurHandler_ f) (setPointerXOffset_ f) (textFieldInteractionHandler_ f)
    (transitionEndHandler_ f) v (isFocused_ f).

(** What a method runs on: the instance and the host behind the
    adapter. *)
Record St (W : Type) : Type := mkSt {
  this : Foundation W;
  host : W
}.
Arguments mkSt {W}.
Arguments this {W}.
Arguments host {W}.

Section Primitives.
Context {W : Type}.

(** [this.adapter_.name]: the function stored under [name], a
    [TypeError] when there is none. *)
Definition method {T} (name : string) (proj : Adapter W -> option T) : JS (St W) T :=
  fun s => match proj (adapter_ (this s)) with
           | Some f => Normal f s
           | None => Throw (NotAFunction name) s
           end.

(** [o.name] on the result of a getter: a [TypeError] when [o] is
    [undefined]. *)
Definition member {T} (name : string) (o : option T) : JS (St W) T :=
  fun s => match o with
           | Some x => Normal x s
           | None => Throw (PropertyOfUndefined name) s
           end.

Definition effect (f : W -> W) : JS (St W) unit :=
  fun s => Normal tt (mkSt (this s) (f (host s))).

Definition query {A} (f : W -> A) : JS (St W) A :=
  fun s => Normal (f (host s)) s.

Definition field {A} (proj : Foundation W -> A) : JS (St W) A :=
  fun s => Normal (proj (this s)) s.

Definition assign (upd : Foundation W -> Foundation W) : JS (St W) unit :=
  fun s => Normal tt (mkSt (upd (this s)) (host s)).

(** Calls of an adapter method, by number of arguments; [ask] keeps the
    returned value. *)
Definition call0 (name : string) (proj : Adapter W -> option (W -> W)) : JS (St W) unit :=
  f ← method name proj; effect f.

Definition call1 {A} (name : string) (proj : Adapter W -> option (A -> W -> W)) (x : A)
  : JS (St W) unit :=
  f ← method name proj; effect (f x).

Definition call2 {A B} (name : string) (proj : Adapter W -> option (A -> B -> W -> W))
    (x : A) (y : B) : JS (St W) unit :=
  f ← method name proj; effect (f x y).

Definition ask0 {R} (name : string) (proj : Adapter W -> option (W -> R)) : JS (St W) R :=
  f ← method name proj; query f.

Definition ask1 {A R} (name : string) (proj : Adapter W -> option (A -> W -> R)) (x : A)
  : JS (St W) R :=
  f ← method name proj; query (f x).

Definition ask2 {A B R} (name : string) (proj : Adapter W -> option (A -> B -> W -> R))
    (x : A) (y : B) : JS (St W) R :=
  f ← method name proj; query (f x y).

End Primitives.

Section MDCTextfieldFoundation.
Context {W : Type}.
Variable css : CssClasses.
Variable strs : Strings.
Variable istrs : InputStrings.

Local Abbreviation Method := (JS (St W)).

(** [static get defaultAdapter()] *)
Definition defaultAdapter : Adapter W :=
  {| addClass := Some (fun _ w => w);
     removeClass := Some (fun _ w => w);
     setIconAttr := Some (fun _ _ w => w);
     eventTargetHasClass := Some (fun _ _ _ => VUndefined);
     registerTextFieldInteractionHandler := Some (fun _ _ w => w);
     deregisterTextFieldInteractionHandler := Some (fun _ _ w => w);
     notifyIconAction := Some (fun w => w);
     addClassToBottomLine := Some (fun _ w => w);
     removeClassFromBottomLine := Some (fun _ w => w);
     addClassToHelptext := Some (fun _ w => w);
     removeClassFromHelptext := Some (fun _ w => w);
     helptextHasClass := Some (fun _ _ => VBool false);
     registerTransitionEndHandler := Some (fun _ w => w);
     deregisterTransitionEndHandler := Some (fun _ w => w);
     setBottomLineAttr := Some (fun _ _ w => w);
     setHelptextAttr := Some (fun _ _ w => w);
     removeHelptextAttr := Some (fun _ w => w);
     getInputFoundation := Some (fun _ => None);
     getLabelFoundation := Some (fun _ => None);
     registerInputInteractionHandler := None;
     deregisterInputInteractionHandler := None |}.

(** [constructor(adapter = {})] *)
Definition new (adapter : Adapter W) : Foundation W :=
  {| adapter_ := Object_assign defaultAdapter adapter;
     useCustomValidityChecking_ := false;
     inputFocusHandler_ := ActivateFocusClosure;
     inputBlurHandler_ := DeactivateFocusClosure;
     setPointerXOffset_ := SetBottomLineTransformOriginClosure;
     textFieldInteractionHandler_ := HandleTextFieldInteractionClosure;
     transitionEndHandler_ := TransitionEndClosure;
     receivedUserInput_ := VUndefined;
     isFocused_ := VUndefined |}.

Definition init : Method unit :=
  call1 "addClass" addClass (UPGRADED css) ;;
  input ← ask0 "getInputFoundation" getInputFoundation;
  input ← member "getValue" input;
  value ← query (Input.getValue input);
  (if truthy (VStr value) then
     label ← ask0 "getLabelFoundation" getLabelFoundation;
     label ← member "floatLabel" label;
     effect (Label.floatLabel label)
   else mret tt) ;;
  h ← field inputFocusHandler_;
  call2 "registerInputInteractionHandler" registerInputInteractionHandler (FOCUS_EVENT istrs) h ;;
  h ← field inputBlurHandler_;
  call2 "registerInputInteractionHandler" registerInputInteractionHandler (BLUR_EVENT istrs) h ;;
  h ← field setPointerXOffset_;
  call2 "registerInputInteractionHandler" registerInputInteractionHandler (PRESSED_EVENT istrs) h ;;
  forEach ["click"; "keydown"] (fun evtType =>
    h ← field textFieldInteractionHandler_;
    call2 "registerTextFieldInteractionHandler" registerTextFieldInteractionHandler evtType h) ;;
  h ← field transitionEndHandler_;
  call1 "registerTransitionEndHandler" registerTransitionEndHandler h.

Definition destroy : Method unit :=
  call1 "removeClass" removeClass (UPGRADED css) ;;
  h ← field inputFocusHandler_;
  call2 "deregisterInputInteractionHandler" deregisterInputInteractionHandler (FOCUS_EVENT istrs) h ;;
  h ← field inputBlurHandler_;
  call2 "deregisterInputInteractionHandler" deregisterInputInteractionHandler (BLUR_EVENT istrs) h ;;
  h ← field setPointerXOffset_;
  call2 "deregisterInputInteractionHandler" deregisterInputInteractionHandler (PRESSED_EVENT istrs) h ;;
  forEach ["click"; "keydown"] (fun evtType =>
    h ← field textFieldInteractionHandler_;
    call2 "deregisterTextFieldInteractionHandler" deregisterTextFieldInteractionHandler evtType h) ;;
  h ← field transitionEndHandler_;
  call1 "deregisterTransitionEndHandler" deregisterTransitionEndHandler h.

Definition handleTextFieldInteraction_ (evt : Event) : Method unit :=
  input ← ask0 "getInputFoundation" getInputFoundation;
  input ← member "disabled" input;
  disabled ← query (Input.disabled input);
  if truthy disabled then mret tt
  else
    assign (set_receivedUserInput_ (VBool true)) ;;
    let target := evt_target evt in
    let type := evt_type evt in
    targetIsIcon ← ask2 "eventTargetHasClass" eventTargetHasClass target (TEXT_FIELD_ICON css);
    let eventTriggersNotification :=
      bool_decide (type = "click")
      || strict_eq (evt_key evt) (VStr "Enter")
      || strict_eq (evt_keyCode evt) (VNum 13) in
    if truthy targetIsIcon && eventTriggersNotification
    then call0 "notifyIconAction" notifyIconAction
    else mret tt.

Definition showHelptext_ : Method unit :=
  call1 "removeHelptextAttr" removeHelptextAttr (ARIA_HIDDEN strs).

Definition activateFocus_ : Method unit :=
  call1 "addClass" addClass (FOCUSED css) ;;
  call1 "addClassToBottomLine" addClassToBottomLine (BOTTOM_LINE_ACTIVE css) ;;
  label ← ask0 "getLabelFoundation" getLabelFoundation;
  label ← member "floatLabel" label;
  effect (Label.floatLabel label) ;;
  showHelptext_.

Definition setBottomLineTransformOrigin_ (evt : Event) : Method unit :=
  let targetClientRect_left := clientRectLeft (evt_target evt) in
  let evtCoords_x := evt_clientX evt in
  let normalizedX := (evtCoords_x - targetClientRect_left)%float in
  let attributeString :=
    "transform-origin: " +:+ Number.toString normalizedX +:+ "px center" in
  call2 "setBottomLineAttr" setBottomLineAttr "style" attributeString.

Definition transitionEnd_ (evt : Event) : Method unit :=
  isFocused ← field isFocused_;
  if strict_eq (evt_propertyName evt) (VStr "opacity") && negb (truthy isFocused)
  then call1 "removeClassFromBottomLine" removeClassFromBottomLine (BOTTOM_LINE_ACTIVE css)
  else mret tt.

Definition hideHelptext_ : Method unit :=
  call2 "setHelptextAttr" setHelptextAttr (ARIA_HIDDEN strs) "true".

Definition updateHelptext_ (isValid : bool) : Method unit :=
  helptextIsPersistent ← ask1 "helptextHasClass" helptextHasClass (HELPTEXT_PERSISTENT css);
  helptextIsValidationMsg ← ask1 "helptextHasClass" helptextHasClass (HELPTEXT_VALIDATION_MSG css);
  let validationMsgNeedsDisplay := truthy helptextIsValidationMsg && negb isValid in
  (if validationMsgNeedsDisplay
   then call2 "setHelptextAttr" setHelptextAttr (ROLE strs) "alert"
   else call1 "removeHelptextAttr" removeHelptextAttr (ROLE strs)) ;;
  if truthy helptextIsPersistent || validationMsgNeedsDisplay
  then mret tt
  else hideHelptext_.

Definition changeValidity_ (isValid : bool) : Method unit :=
  label ← ask0 "getLabelFoundation" getLabelFoundation;
  label ← member "changeValidity" label;
  effect (Label.changeValidity label isValid) ;;
  (if isValid
   then call1 "removeClass" removeClass (INVALID css)
   else call1 "addClass" addClass (INVALID css)) ;;
  updateHelptext_ isValid.

(** In [!input.getValue() && !input.isBadInput()] the second call is
    skipped when the value is not empty; the queries of a controller
    read the host and change nothing, so asking both is the same. *)
Definition deactivateFocus_ : Method unit :=
  input ← ask0 "getInputFoundation" getInputFoundation;
  call1 "removeClass" removeClass (FOCUSED css) ;;
  label ← ask0 "getLabelFoundation" getLabelFoundation;
  input ← member "getValue" input;
  value ← query (Input.getValue input);
  isBad ← query (Input.isBadInput input);
  let hasValidInput := negb (truthy (VStr value)) && negb isBad in
  label ← member "deactivateFocus" label;
  effect (Label.deactivateFocus label hasValidInput) ;;
  custom ← field useCustomValidityChecking_;
  if negb custom
  then valid ← query (Input.checkValidity input); changeValidity_ valid
  else mret tt.

Definition setDisabled (disabled : bool) : Method unit :=
  input ← ask0 "getInputFoundation" getInputFoundation;
  input ← member "setDisabled" input;
  effect (Input.setDisabled input disabled) ;;
  if disabled
  then call1 "addClass" addClass (DISABLED css) ;;
       call2 "setIconAttr" setIconAttr "tabindex" "-1"
  else call1 "removeClass" removeClass (DISABLED css) ;;
       call2 "setIconAttr" setIconAttr "tabindex" "0".

Definition setValid (isValid : bool) : Method unit :=
  assign (set_useCustomValidityChecking_ true) ;;
  changeValidity_ isValid.

(** What calling a stored handler with an event runs: the body of the
    arrow function. *)
Definition invoke (h : Handler) (evt : Event) : Method unit :=
  match h with
  | ActivateFocusClosure => activateFocus_
  | DeactivateFocusClosure => deactivateFocus_
  | SetBottomLineTransformOriginClosure => setBottomLineTransformOrigin_ evt
  | HandleTextFieldInteractionClosure => handleTextFieldInteraction_ evt
  | TransitionEndClosure => transitionEnd_ evt
  end.

End MDCTextfieldFoundation.

(** ** The DOM the adapters act on *)

(** [el.classList.add(c)], [.remove(c)], [.contains(c)] *)
Definition classList_add (c : string) (el : Element) : Element :=
  mkElement ({[c]} ∪ classList el) (attributes el) (listeners el) (clientRectLeft el).

Definition classList_remove (c : string) (el : Element) : Element :=
  mkElement (classList el ∖ {[c]}) (attributes el) (listeners el) (clientRectLeft el).

Definition classList_contains (c : string) (el : Element) : bool :=
  bool_decide (c ∈ classList el).

(** [el.setAttribute(name, value)], [el.removeAttribute(name)] *)
Definition setAttribute (name value : string) (el : Element) : Element :=
  mkElement (classList el) (<[name := value]> (attributes el)) (listeners el) (clientRectLeft el).

Definition removeAttribute (name : string) (el : Element) : Element :=
  mkElement (classList el) (delete name (attributes el)) (listeners el) (clientRectLeft el).

(** [el.addEventListener(type, handler)]: a listener already attached
    for the same type is not attached again.
    [el.removeEventListener(type, handler)] detaches it. *)
Definition addEventListener (type : string) (h : Handler) (el : Element) : Element :=
  mkElement (classList el) (attributes el)
    (if bool_decide ((type, h) ∈ listeners el) then listeners el
     else listeners el ++ [(type, h)])
    (clientRectLeft el).

Definition removeEventListener (type : string) (h : Handler) (el : Element) : Element :=
  mkElement (classList el) (attributes el)
    (filter (fun l => l ≠ (type, h)) (listeners el))
    (clientRectLeft el).

(** Calls that leave no mark on an element: those made on the child
    controllers, and the events the component emits. *)
Inductive Call : Type :=
| Label_floatLabel
| Label_deactivateFocus (hasValidInput : bool)
| Label_changeValidity (isValid : bool)
| Input_setDisabled (disabled : bool)
| Emit (evtType : string).

#[global] Instance Call_eq_dec : EqDecision Call.
Proof. solve_decision. Defined.

(** The page around one text field: the root element, the element the
    input component listens on, the icon when there is one, the bottom
    line, the help text, the state of the native input, and the calls
    made so far (oldest first). *)
Record World : Type := mkWorld {
  root : Element;
  input : Element;
  icon : option Element;
  bottomLine : Element;
  helptext : Element;
  value : string;
  badInput : bool;
  validity : bool;
  nativeDisabled : bool;
  disabledProperty : JSVal;
  calls : list Call
}.

Definition on_root (f : Element -> Element) (w : World) : World :=
  mkWorld (f (root w)) (input w) (icon w) (bottomLine w) (helptext w)
    (value w) (badInput w) (validity w) (nativeDisabled w) (disabledProperty w) (calls w).

Definition on_input (f : Element -> Element) (w : World) : World :=
  mkWorld (root w) (f (input w)) (icon w) (bottomLine w) (helptext w)
    (value w) (badInput w) (validity w) (nativeDisabled w) (disabledProperty w) (calls w).

Definition on_icon (f : Element -> Element) (w : World) : World :=
  mkWorld (root w) (input w) (f <$> icon w) (bottomLine w) (helptext w)
    (value w) (badInput w) (validity w) (nativeDisabled w) (disabledProperty w) (calls w).

Definition on_bottomLine (f : Element -> Element) (w : World) : World :=
  mkWorld (root w) (input w) (icon w) (f (bottomLine w)) (helptext w)
    (value w) (badInput w) (validity w) (nativeDisabled w) (disabledProperty w) (calls w).

Definition on_helptext (f : Element -> Element) (w : World) : World :=
  mkWorld (root w) (input w) (icon w) (bottomLine w) (f (helptext w))
    (value w) (badInput w) (validity w) (nativeDisabled w) (disabledProperty w) (calls w).

Definition set_nativeDisabled (b : bool) (w : World) : World :=
  mkWorld (root w) (input w) (icon w) (bottomLine w) (helptext w)
    (value w) (badInput w) (validity w) b (disabledProperty w) (calls w).

Definition record (c : Call) (w : World) : World :=
  mkWorld (root w) (input w) (icon w) (bottomLine w) (helptext w)
    (value w) (badInput w) (validity w) (nativeDisabled w) (disabledProperty w) (calls w ++ [c]).

(** Modelled from the spec: [input/foundation.js] and
    [label/foundation.js] are not among the sources.  The spec (section 3)
    gives the capabilities the foundation uses: [getValue()],
    [isBadInput()], [checkValidity()], [setDisabled(bool)],
    [isDisabled()] on the input controller, [floatLabel()],
    [deactivateFocus(bool)], [changeValidity(bool)] on the label
    controller.  The stand-ins answer from the state of the native input
    and record every call.  The property [disabled], which the spec does
    not list and [handleTextFieldInteraction_] reads, is a value of its
    own in the world. *)
Definition inputFoundation : Input.Foundation World :=
  {| Input.getValue := value;
     Input.isBadInput := badInput;
     Input.checkValidity := validity;
     Input.setDisabled := fun b w => record (Input_setDisabled b) (set_nativeDisabled b w);
     Input.isDisabled := nativeDisabled;
     Input.disabled := disabledProperty |}.

Definition labelFoundation : Label.Foundation World :=
  {| Label.floatLabel := record Label_floatLabel;
     Label.deactivateFocus := fun b => record (Label_deactivateFocus b);
     Label.changeValidity := fun b => record (Label_changeValidity b) |}.

(** *** The component: [MDCTextfield] of [index.js] *)

Module MDCTextfield.
Section WithConstants.
Variable css : CssClasses.
Variable strs : Strings.

(** Modelled from the spec: [this.input_.listen(evtType, handler)] is
    the base component's [listen], which is not among the sources.  The
    spec (sections 4.1 and 6) has [registerInputInteractionHandler],
    which is this call, attach the handler for the event type; so
    [listen] attaches the handler to the element of the input. *)
Definition input_listen (evtType : string) (handler : Handler) : World -> World :=
  on_input (addEventListener evtType handler).

(** [this.emit(evtType, {})] *)
Definition emit (evtType : string) : World -> World := record (Emit evtType).

(** [getIconAdapterMethods_()] *)
Definition getIconAdapterMethods_ : Adapter World :=
  mkAdapter None None
    (Some (fun name value w =>
             if icon w is Some _ then on_icon (setAttribute name value) w else w))
    None None None None None None None None None None None None None None None None
    None None.

(** The object literal that [getDefaultFoundation()] builds, merged
    with the icon methods. *)
Definition componentAdapter : Adapter World :=
  Object_assign
    {| addClass := Some (fun className => on_root (classList_add className));
       removeClass := Some (fun className => on_root (classList_remove className));
       setIconAttr := None;
       eventTargetHasClass :=
         Some (fun target className _ => VBool (classList_contains className target));
       registerTextFieldInteractionHandler :=
         Some (fun evtType handler => on_root (addEventListener evtType handler));
       deregisterTextFieldInteractionHandler :=
         Some (fun evtType handler => on_root (removeEventListener evtType handler));
       notifyIconAction := Some (emit (ICON_EVENT strs));
       addClassToBottomLine := None;
       removeClassFromBottomLine := None;
       addClassToHelptext := None;
       removeClassFromHelptext := None;
       helptextHasClass := None;
       registerTransitionEndHandler := None;
       deregisterTransitionEndHandler := None;
       setBottomLineAttr := None;
       setHelptextAttr := None;
       removeHelptextAttr := None;
       getInputFoundation := Some (fun _ => Some inputFoundation);
       getLabelFoundation := Some (fun _ => Some labelFoundation);
       registerInputInteractionHandler := Some (fun evtType handler => input_listen evtType handler);
       deregisterInputInteractionHandler := Some (fun evtType handler => input_listen evtType handler) |}
    getIconAdapterMethods_.

(** [getDefaultFoundation()] *)
Definition getDefaultFoundation : Foundation World := new componentAdapter.

(** [set disabled(disabled)], [set valid(valid)] and [get disabled()]:
    the first two go to the foundation, the third to the input
    controller. *)
Definition set_disabled (disabled : bool) : JS (St World) unit := setDisabled css disabled.

Definition set_valid (valid : bool) : JS (St World) unit := setValid css strs valid.

Definition get_disabled (w : World) : bool := Input.isDisabled inputFoundation w.

End WithConstants.
End MDCTextfield.

(** *** A host that supplies every capability

    The adapter a complete host hands over: the capabilities the
    component supplies, as the component supplies them except that
    deregistration detaches, and those it leaves to the default adapter
    (bottom line, help text, transition end), done on the bottom-line and
    help-text elements. *)
Section Host.
Variable css : CssClasses.
Variable strs : Strings.

Definition hostAdapter : Adapter World :=
  {| addClass := Some (fun className => on_root (classList_add className));
     removeClass := Some (fun className => on_root (classList_remove className));
     setIconAttr :=
       Some (fun name value w =>
               if icon w is Some _ then on_icon (setAttribute name value) w else w);
     eventTargetHasClass :=
       Some (fun target className _ => VBool (classList_contains className target));
     registerTextFieldInteractionHandler :=
       Some (fun evtType handler => on_root (addEventListener evtType handler));
     deregisterTextFieldInteractionHandler :=
       Some (fun evtType handler => on_root (removeEventListener evtType handler));
     notifyIconAction := Some (record (Emit (ICON_EVENT strs)));
     addClassToBottomLine := Some (fun className => on_bottomLine (classList_add className));
     removeClassFromBottomLine :=
       Some (fun className => on_bottomLine (classList_remove className));
     addClassToHelptext := Some (fun className => on_helptext (classList_add className));
     removeClassFromHelptext := Some (fun className => on_helptext (classList_remove className));
     helptextHasClass :=
       Some (fun className w => VBool (classList_contains className (helptext w)));
     registerTransitionEndHandler :=
       Some (fun handler => on_bottomLine (addEventListener "transitionend" handler));
     deregisterTransitionEndHandler :=
       Some (fun handler => on_bottomLine (removeEventListener "transitionend" handler));
     setBottomLineAttr := Some (fun name value => on_bottomLine (setAttribute name value));
     setHelptextAttr := Some (fun name value => on_helptext (setAttribute name value));
     removeHelptextAttr := Some (fun name => on_helptext (removeAttribute name));
     getInputFoundation := Some (fun _ => Some inputFoundation);
     getLabelFoundation := Some (fun _ => Some labelFoundation);
     registerInputInteractionHandler :=
       Some (fun evtType handler => on_input (addEventListener evtType handler));
     deregisterInputInteractionHandler :=
       Some (fun evtType handler => on_input (removeEventListener evtType handler)) |}.

End Host.

(** *** Events and the life of an instance *)

Section Lifetime.
Variable css : CssClasses.
Variable strs : Strings.
Variable istrs : InputStrings.

(** Running a method on a state: what is left afterwards, whether the
    method returned or threw. *)
Definition run {W A} (m : JS (St W) A) (s : St W) : St W := final (m s).

(** [el.dispatchEvent(evt)]: the listeners attached for the event's type
    are called in order of attachment; an exception in one is reported
    and does not stop the others. *)
Definition dispatchEvent (el : World -> Element) (evt : Event) (s : St World) : St World :=
  foldl (fun s' l => run (invoke css strs (snd l) evt) s') s
    (filter (fun l => fst l = evt_type evt) (listeners (el (host s)))).

(** What can happen to an instance between construction and the end of
    its life: its public methods, its five handlers, and changes of the
    native input made by the user or the page. *)
Inductive Step : Type :=
| Init
| Destroy
| Focus
| Blur
| Pressed (evt : Event)
| Interaction (evt : Event)
| TransitionEnd (evt : Event)
| SetDisabled (disabled : bool)
| SetValid (isValid : bool)
| NativeInput (value : string) (badInput validity : bool) (disabledProperty : JSVal).

Definition set_native (v : string) (bad valid : bool) (d : JSVal) (w : World) : World :=
  mkWorld (root w) (input w) (icon w) (bottomLine w) (helptext w)
    v bad valid (nativeDisabled w) d (calls w).

Definition step (st : Step) (s : St World) : St World :=
  match st with
  | Init => run (init css istrs) s
  | Destroy => run (destroy css istrs) s
  | Focus => run (activateFocus_ css strs) s
  | Blur => run (deactivateFocus_ css strs) s
  | Pressed evt => run (setBottomLineTransformOrigin_ evt) s
  | Interaction evt => run (handleTextFieldInteraction_ css evt) s
  | TransitionEnd evt => run (transitionEnd_ css evt) s
  | SetDisabled b => run (setDisabled css b) s
  | SetValid b => run (setValid css strs b) s
  | NativeInput v bad valid d => mkSt (this s) (set_native v bad valid d (host s))
  end.

Definition steps (sts : list Step) (s : St World) : St World := foldl (fun s' st => step st s') s sts.

End Lifetime.

(** *** The methods in direct style, on a complete host

    What each method of the foundation does to the world when the
    adapter is [hostAdapter]; the lemmas [*_on_host] below derive these
    from the methods themselves. *)
Section OnHost.
Variable css : CssClasses.
Variable strs : Strings.
Variable istrs : InputStrings.

Definition init_on (f : Foundation World) (w : World) : World :=
  let w1 := on_root (classList_add (UPGRADED css)) w in
  let w2 := if truthy (VStr (value w)) then record Label_floatLabel w1 else w1 in
  let w3 := on_input (addEventListener (FOCUS_EVENT istrs) (inputFocusHandler_ f)) w2 in
  let w4 := on_input (addEventListener (BLUR_EVENT istrs) (inputBlurHandler_ f)) w3 in
  let w5 := on_input (addEventListener (PRESSED_EVENT istrs) (setPointerXOffset_ f)) w4 in
  let w6 := on_root (addEventListener "click" (textFieldInteractionHandler_ f)) w5 in
  let w7 := on_root (addEventListener "keydown" (textFieldInteractionHandler_ f)) w6 in
  on_bottomLine (addEventListener "transitionend" (transitionEndHandler_ f)) w7.

Definition destroy_on (f : Foundation World) (w : World) : World :=
  let w1 := on_root (classList_remove (UPGRADED css)) w in
  let w3 := on_input (removeEventListener (FOCUS_EVENT istrs) (inputFocusHandler_ f)) w1 in
  let w4 := on_input (removeEventListener (BLUR_EVENT istrs) (inputBlurHandler_ f)) w3 in
  let w5 := on_input (removeEventListener (PRESSED_EVENT istrs) (setPointerXOffset_ f)) w4 in
  let w6 := on_root (removeEventListener "click" (textFieldInteractionHandler_ f)) w5 in
  let w7 := on_root (removeEventListener "keydown" (textFieldInteractionHandler_ f)) w6 in
  on_bottomLine (removeEventListener "transitionend" (transitionEndHandler_ f)) w7.

Definition triggersNotification (evt : Event) : bool :=
  classList_contains (TEXT_FIELD_ICON css) (evt_target evt)
  && (bool_decide (evt_type evt = "click")
      || strict_eq (evt_key evt) (VStr "Enter")
      || strict_eq (evt_keyCode evt) (VNum 13)).

Definition activateFocus_on (w : World) : World :=
  on_helptext (removeAttribute (ARIA_HIDDEN strs))
    (record Label_floatLabel
       (on_bottomLine (classList_add (BOTTOM_LINE_ACTIVE css))
          (on_root (classList_add (FOCUSED css)) w))).

Definition updateHelptext_on (isValid : bool) (w : World) : World :=
  let persistent := classList_contains (HELPTEXT_PERSISTENT css) (helptext w) in
  let needsDisplay :=
    classList_contains (HELPTEXT_VALIDATION_MSG css) (helptext w) && negb isValid in
  let w1 := if needsDisplay then on_helptext (setAttribute (ROLE strs) "alert") w
            else on_helptext (removeAttribute (ROLE strs)) w in
  if persistent || needsDisplay then w1
  else on_helptext (setAttribute (ARIA_HIDDEN strs) "true") w1.

Definition changeValidity_on (isValid : bool) (w : World) : World :=
  let w1 := record (Label_changeValidity isValid) w in
  let w2 := if isValid then on_root (classList_remove (INVALID css)) w1
            else on_root (classList_add (INVALID css)) w1 in
  updateHelptext_on isValid w2.

Definition hasValidInput (w : World) : bool :=
  negb (truthy (VStr (value w))) && negb (badInput w).

Definition deactivateFocus_on (custom : bool) (w : World) : World :=
  let w1 := record (Label_deactivateFocus (hasValidInput w))
              (on_root (classList_remove (FOCUSED css)) w) in
  if custom then w1 else changeValidity_on (validity w) w1.

Definition setIconAttr_on (name value : string) (w : World) : World :=
  if icon w is Some _ then on_icon (setAttribute name value) w else w.

Definition setDisabled_on (disabled : bool) (w : World) : World :=
  let w1 := record (Input_setDisabled disabled) (set_nativeDisabled disabled w) in
  if disabled
  then setIconAttr_on "tabindex" "-1" (on_root (classList_add (DISABLED css)) w1)
  else setIconAttr_on "tabindex" "0" (on_root (classList_remove (DISABLED css)) w1).

Definition handleTextFieldInteraction_on (evt : Event) (s : St World) : St World :=
  if truthy (disabledProperty (host s)) then s
  else mkSt (set_receivedUserInput_ (VBool true) (this s))
            (if triggersNotification evt
             then record (Emit (ICON_EVENT strs)) (host s) else host s).

Definition transitionEnd_on (evt : Event) (isFocused : JSVal) (w : World) : World :=
  if strict_eq (evt_propertyName evt) (VStr "opacity") && negb (truthy isFocused)
  then on_bottomLine (classList_remove (BOTTOM_LINE_ACTIVE css)) w else w.

Definition setBottomLineTransformOrigin_on (evt : Event) (w : World) : World :=
  on_bottomLine
    (setAttribute "style"
       ("transform-origin: "
        +:+ Number.toString (evt_clientX evt - clientRectLeft (evt_target evt))%float
        +:+ "px center")) w.

(** A step of the life of an instance, in direct style. *)
Definition step_on (st : Step) (s : St World) : St World :=
  let f := this s in
  let w := host s in
  match st with
  | Init => mkSt f (init_on f w)
  | Destroy => mkSt f (destroy_on f w)
  | Focus => mkSt f (activateFocus_on w)
  | Blur => mkSt f (deactivateFocus_on (useCustomValidityChecking_ f) w)
  | Pressed evt => mkSt f (setBottomLineTransformOrigin_on evt w)
  | Interaction evt => handleTextFieldInteraction_on evt s
  | TransitionEnd evt => mkSt f (transitionEnd_on evt (isFocused_ f) w)
  | SetDisabled b => mkSt f (setDisabled_on b w)
  | SetValid b => mkSt (set_useCustomValidityChecking_ true f) (changeValidity_on b w)
  | NativeInput v bad valid d => mkSt f (set_native v bad valid d w)
  end.

End OnHost.

(** *** [init] and [destroy] in direct style, on the component

    The same for the adapter of [getDefaultFoundation()]: the transition
    end handler goes to the default adapter's empty function, and both
    the registration and the deregistration on the input go through
    [listen]. *)
Section OnComponent.
Variable css : CssClasses.
Variable istrs : InputStrings.

Definition init_on_component (f : Foundation World) (w : World) : World :=
  let w1 := on_root (classList_add (UPGRADED css)) w in
  let w2 := if truthy (VStr (value w)) then record Label_floatLabel w1 else w1 in
  let w3 := MDCTextfield.input_listen (FOCUS_EVENT istrs) (inputFocusHandler_ f) w2 in
  let w4 := MDCTextfield.input_listen (BLUR_EVENT istrs) (inputBlurHandler_ f) w3 in
  let w5 := MDCTextfield.input_listen (PRESSED_EVENT istrs) (setPointerXOffset_ f) w4 in
  let w6 := on_root (addEventListener "click" (textFieldInteractionHandler_ f)) w5 in
  on_root (addEventListener "keydown" (textFieldInteractionHandler_ f)) w6.

Definition destroy_on_component (f : Foundation World) (w : World) : World :=
  let w1 := on_root (classList_remove (UPGRADED css)) w in
  let w3 := MDCTextfield.input_listen (FOCUS_EVENT istrs) (inputFocusHandler_ f) w1 in
  let w4 := MDCTextfield.input_listen (BLUR_EVENT istrs) (inputBlurHandler_ f) w3 in
  let w5 := MDCTextfield.input_listen (PRESSED_EVENT istrs) (setPointerXOffset_ f) w4 in
  let w6 := on_root (removeEventListener "click" (textFieldInteractionHandler_ f)) w5 in
  on_root (removeEventListener "keydown" (textFieldInteractionHandler_ f)) w6.

End OnComponent.

(** ** An invariant of manual validity

    What [setValid(false)] establishes on a complete host and every
    later step other than [setValid(true)] keeps: custom validity
    checking is on and the root carries the "invalid" class. *)
Definition manually_invalid (css : CssClasses) (strs : Strings) (s : St World) : Prop :=
  adapter_ (this s) = hostAdapter strs
  ∧ useCustomValidityChecking_ (this s) = true
  ∧ INVALID css ∈ classList (root (host s)).

(** ** The help-text update as the specification words it

    "If help text currently serves as a validation message AND the field
    is invalid, sets an alert role attribute on it and ensures it is
    visible (clears hidden marker); otherwise clears the role attribute.
    If help text is marked persistent, OR it is actively showing a
    validation message for an invalid field, leave it visible; otherwise
    hide it (set hidden marker attribute to true)."  The attributes of
    the help text that this wording prescribes: *)
Definition helptext_attributes_specified (css : CssClasses) (strs : Strings)
    (isValid : bool) (helptext : Element) : gmap string string :=
  let persistent := classList_contains (HELPTEXT_PERSISTENT css) helptext in
  let needsDisplay :=
    classList_contains (HELPTEXT_VALIDATION_MSG css) helptext && negb isValid in
  if needsDisplay
  then delete (ARIA_HIDDEN strs) (<[ROLE strs := "alert"]> (attributes helptext))
  else if persistent then delete (ROLE strs) (attributes helptext)
  else <[ARIA_HIDDEN strs := "true"]> (delete (ROLE strs) (attributes helptext)).

(** ** Concrete inputs *)

(** Modelled from the spec: the text field's [constants.js] and the
    input controller's constants are not among the sources (the
    constants file that is there belongs to the select).  The spec
    (section 6) names the class constants (upgraded, focused, disabled,
    invalid, bottom-line-active, helptext-persistent,
    helptext-validation-message, text-field-icon), the [aria-hidden] and
    [role] attribute names and an icon-action event name, and says the
    input events are focus, blur and a pointer-down equivalent.  The
    values follow the naming of the select's constants.  They are used
    only at concrete inputs; the theorems hold for any constants. *)
Definition mdc_cssClasses : CssClasses :=
  {| UPGRADED := "mdc-textfield--upgraded";
     FOCUSED := "mdc-textfield--focused";
     DISABLED := "mdc-textfield--disabled";
     INVALID := "mdc-textfield--invalid";
     BOTTOM_LINE_ACTIVE := "mdc-textfield__bottom-line--active";
     HELPTEXT_PERSISTENT := "mdc-textfield-helptext--persistent";
     HELPTEXT_VALIDATION_MSG := "mdc-textfield-helptext--validation-msg";
     TEXT_FIELD_ICON := "mdc-textfield__icon" |}.

Definition mdc_strings : Strings :=
  {| ARIA_HIDDEN := "aria-hidden"; ROLE := "role"; ICON_EVENT := "MDCTextfield:icon" |}.

Definition mdc_inputStrings : InputStrings :=
  {| FOCUS_EVENT := "focus"; BLUR_EVENT := "blur"; PRESSED_EVENT := "pointerdown" |}.

(** An element with no class, attribute or listener. *)
Definition blank : Element := mkElement ∅ ∅ [] 0%float.

(** A freshly loaded page: an empty, valid, enabled input, an icon, and
    nothing attached yet. *)
Definition page : World :=
  mkWorld blank blank (Some blank) blank blank "" false true false (VBool false) [].

(** The icon as an event target. *)
Definition iconTarget (css : CssClasses) : Element :=
  classList_add (TEXT_FIELD_ICON css) blank.

Definition click (target : Element) : Event :=
  mkEvent "click" target VUndefined VUndefined VUndefined 0%float 0%float.

Definition keydown (target : Element) (key : string) (keyCode : Z) : Event :=
  mkEvent "keydown" target (VStr key) (VNum keyCode) VUndefined 0%float 0%float.

Definition transitionend (propertyName : string) : Event :=
  mkEvent "transitionend" blank VUndefined VUndefined (VStr propertyName) 0%float 0%float.

Definition inputEvent (type : string) : Event :=
  mkEvent type blank VUndefined VUndefined VUndefined 0%float 0%float.

(** A page whose help text is a validation message that markup has
    hidden from assistive technology. *)
Definition hiddenValidationPage : World :=
  mkWorld blank blank (Some blank) blank
    (setAttribute "aria-hidden" "true"
       (classList_add (HELPTEXT_VALIDATION_MSG mdc_cssClasses) blank))
    "" false true false (VBool false) [].

(** Focus and blur, as a sequence of steps. *)
Definition focusOrBlur (focus : bool) : Step := if focus then Focus else Blur.

(** *** The whole life of an instance in direct style, on the component

    With the adapter of [getDefaultFoundation()] the bottom line, the
    help text and the transition end go to the default adapter's empty
    functions, and [helptextHasClass] to its constant [false]. *)
Section StepsOnComponent.
Variable css : CssClasses.
Variable strs : Strings.
Variable istrs : InputStrings.

Definition changeValidity_on_component (isValid : bool) (w : World) : World :=
  let w1 := record (Label_changeValidity isValid) w in
  if isValid then on_root (classList_remove (INVALID css)) w1
  else on_root (classList_add (INVALID css)) w1.

Definition deactivateFocus_on_component (custom : bool) (w : World) : World :=
  let w1 := record (Label_deactivateFocus (hasValidInput w))
              (on_root (classList_remove (FOCUSED css)) w) in
  if custom then w1 else changeValidity_on_component (validity w) w1.

Definition step_on_component (st : Step) (s : St World) : St World :=
  let f := this s in
  let w := host s in
  match st with
  | Init => mkSt f (init_on_component css istrs f w)
  | Destroy => mkSt f (destroy_on_component css istrs f w)
  | Focus => mkSt f (record Label_floatLabel (on_root (classList_add (FOCUSED css)) w))
  | Blur => mkSt f (deactivateFocus_on_component (useCustomValidityChecking_ f) w)
  | Pressed _ => mkSt f w
  | Interaction evt => handleTextFieldInteraction_on css strs evt s
  | TransitionEnd _ => mkSt f w
  | SetDisabled b => mkSt f (setDisabled_on css b w)
  | SetValid b => mkSt (set_useCustomValidityChecking_ true f) (changeValidity_on_component b w)
  | NativeInput v bad valid d => mkSt f (set_native v bad valid d w)
  end.

End StepsOnComponent.

(** ** More concrete inputs *)

(** The adapter of an instance, whatever its flags: an instance over a
    given merged adapter. *)
Definition instance_over {W} (a : Adapter W) (custom : bool) (received isFocused : JSVal)
  : Foundation W :=
  mkFoundation a custom ActivateFocusClosure DeactivateFocusClosure
    SetBottomLineTransformOriginClosure HandleTextFieldInteractionClosure
    TransitionEndClosure received isFocused.

(** A pointer press at horizontal position [x] on a target whose left
    edge is at [left]. *)
Definition pressAt (x left : float) : Event :=
  mkEvent "pointerdown" (mkElement ∅ ∅ [] left) VUndefined VUndefined VUndefined x 0%float.

(** A page without an icon. *)
Definition pageWithoutIcon : World :=
  mkWorld blank blank None blank blank "" false true false (VBool false) [].

(** Modelled from the spec: the input controller as the spec (section 3)
    lists it has [getValue()], [isBadInput()], [checkValidity()],
    [setDisabled(bool)] and [isDisabled()], and no property [disabled];
    reading that property gives [undefined].  This is the page [w] with
    such a controller. *)
Definition withoutDisabledProperty (w : World) : World :=
  set_native (value w) (badInput w) (validity w) VUndefined w.

(** An adapter that supplies the two input-handler capabilities and the
    two controllers, and nothing else. *)
Definition minimalAdapter : Adapter World :=
  mkAdapter None None None None None None None None None None None None None None None None
    None
    (Some (fun _ => Some inputFoundation))
    (Some (fun _ => Some labelFoundation))
    (Some (fun evtType handler => on_input (addEventListener evtType handler)))
    (Some (fun evtType handler => on_input (removeEventListener evtType handler))).

Definition isNativeInput (st : Step) : bool :=
  match st with NativeInput _ _ _ _ => true | _ => false end.

Definition isSetValid (st : Step) : bool :=
  match st with SetValid _ => true | _ => false end.

(** ** What no method changes *)

(** [frame f f']: going from [f] to [f'], the adapter, the five stored
    handlers and [isFocused_] are the same, and
    [useCustomValidityChecking_], once true, is still true. *)
Definition frame {W} (f f' : Foundation W) : Prop :=
  adapter_ f' = adapter_ f
  ∧ isFocused_ f' = isFocused_ f
  ∧ inputFocusHandler_ f' = inputFocusHandler_ f
  ∧ inputBlurHandler_ f' = inputBlurHandler_ f
  ∧ setPointerXOffset_ f' = setPointerXOffset_ f
  ∧ textFieldInteractionHandler_ f' = textFieldInteractionHandler_ f
  ∧ transitionEndHandler_ f' = transitionEndHandler_ f
  ∧ (useCustomValidityChecking_ f = true → useCustomValidityChecking_ f' = true).

(** A computation is [stable] when the instance it leaves is in the
    frame of the one it started from, whether it returns or throws. *)
Definition stable {W A} (m : JS (St W) A) : Prop :=
  ∀ s, frame (this s) (this (final (m s))).

Section Frame.
Context {W : Type}.
Implicit Types (f : Foundation W) (s : St W).

Lemma frame_refl f : frame f f.
Proof. unfold frame; tauto. Qed.

Lemma frame_trans f1 f2 f3 : frame f1 f2 → frame f2 f3 → frame f1 f3.
Proof.
  unfold frame. intros (?&?&?&?&?&?&?&?) (?&?&?&?&?&?&?&?).
  repeat split; try congruence. auto.
Qed.

Lemma stable_ret {A} (a : A) : stable (W:=W) (mret a).
Proof. intros s. apply frame_refl. Qed.

Lemma stable_bind {A B} (m : JS (St W) A) (k : A → JS (St W) B) :
  stable m → (∀ a, stable (k a)) → stable (m ≫= k).
Proof.
  intros Hm Hk s. specialize (Hm s).
  unfold mbind, JS_bind, bind. destruct (m s) as [a s'|e s']; simpl in *.
  - eapply frame_trans; [exact Hm | apply Hk].
  - exact Hm.
Qed.

Lemma stable_method {T} name (proj : Adapter W → option T) : stable (method name proj).
Proof. intros s. unfold method. destruct (proj _); apply frame_refl. Qed.

Lemma stable_member {T} name (o : option T) : stable (W:=W) (member name o).
Proof. intros s. unfold member. destruct o; apply frame_refl. Qed.

Lemma stable_effect (g : W → W) : stable (effect g).
Proof. intros s. apply frame_refl. Qed.

Lemma stable_query {A} (g : W → A) : stable (query g).
Proof. intros s. apply frame_refl. Qed.

Lemma stable_field {A} (proj : Foundation W → A) : stable (field proj).
Proof. intros s. apply frame_refl. Qed.

Lemma stable_assign (upd : Foundation W → Foundation W) :
  (∀ f, frame f (upd f)) → stable (assign upd).
Proof. intros H s. apply H. Qed.

Lemma stable_forEach {A} (xs : list A) (g : A → JS (St W) unit) :
  (∀ x, stable (g x)) → stable (forEach xs g).
Proof.
  intros Hg. induction xs as [|x xs IH]; simpl.
  - apply stable_ret.
  - apply stable_bind; [apply Hg | intros _; exact IH].
Qed.

Lemma frame_set_receivedUserInput_ v f : frame f (set_receivedUserInput_ v f).
Proof. unfold frame; simpl; tauto. Qed.

Lemma frame_set_useCustomValidityChecking_ f :
  frame f (set_useCustomValidityChecking_ true f).
Proof. unfold frame; simpl; tauto. Qed.

End Frame.

Create HintDb stable.

#[local] Hint Resolve stable_ret stable_method stable_member stable_effect stable_query
  stable_field frame_set_receivedUserInput_ frame_set_useCustomValidityChecking_ : stable.

(** Walks through the binds, conditionals and loops of a method. *)
Ltac stable_walk :=
  repeat first
    [ apply stable_bind; [| intros ?]
    | apply stable_forEach; intros ?
    | apply stable_assign; intros ?
    | match goal with
      | |- stable (if ?b then _ else _) => destruct b
      | |- stable (let _ := _ in _) => cbv zeta
      end
    | solve [auto with stable] ].

Section MethodsStable.
Context {W : Type}.
Variable css : CssClasses.
Variable strs : Strings.
Variable istrs : InputStrings.

Lemma stable_init : stable (W:=W) (init css istrs).
Proof. unfold init, call1, call2, ask0. stable_walk. Qed.

Lemma stable_destroy : stable (W:=W) (destroy css istrs).
Proof. unfold destroy, call1, call2. stable_walk. Qed.

Lemma stable_handleTextFieldInteraction_ evt :
  stable (W:=W) (handleTextFieldInteraction_ css evt).
Proof. unfold handleTextFieldInteraction_, call0, ask0, ask2. stable_walk. Qed.

Lemma stable_activateFocus_ : stable (W:=W) (activateFocus_ css strs).
Proof. unfold activateFocus_, showHelptext_, call1, ask0. stable_walk. Qed.

Lemma stable_setBottomLineTransformOrigin_ evt :
  stable (W:=W) (setBottomLineTransformOrigin_ evt).
Proof. unfold setBottomLineTransformOrigin_, call2. stable_walk. Qed.

Lemma stable_transitionEnd_ evt : stable (W:=W) (transitionEnd_ css evt).
Proof. unfold transitionEnd_, call1. stable_walk. Qed.

Lemma stable_updateHelptext_ b : stable (W:=W) (updateHelptext_ css strs b).
Proof. unfold updateHelptext_, hideHelptext_, call1, call2, ask1. stable_walk. Qed.

Lemma stable_changeValidity_ b : stable (W:=W) (changeValidity_ css strs b).
Proof.
  unfold changeValidity_, call1, ask0.
  stable_walk; apply stable_updateHelptext_.
Qed.

Lemma stable_deactivateFocus_ : stable (W:=W) (deactivateFocus_ css strs).
Proof.
  unfold deactivateFocus_, call1, ask0.
  stable_walk; apply stable_changeValidity_.
Qed.

Lemma stable_setDisabled b : stable (W:=W) (setDisabled css b).
Proof. unfold setDisabled, call1, call2, ask0. stable_walk. Qed.

Lemma stable_setValid b : stable (W:=W) (setValid css strs b).
Proof. unfold setValid. stable_walk; try apply stable_changeValidity_. Qed.

End MethodsStable.

Section LifetimeFrame.
Variable css : CssClasses.
Variable strs : Strings.
Variable istrs : InputStrings.

Lemma frame_step st s : frame (this s) (this (step css strs istrs st s)).
Proof.
  destruct st; simpl; unfold run;
    first [ apply stable_init | apply stable_destroy | apply stable_activateFocus_
          | apply stable_deactivateFocus_ | apply stable_setBottomLineTransformOrigin_
          | apply stable_handleTextFieldInteraction_ | apply stable_transitionEnd_
          | apply stable_setDisabled | apply stable_setValid | apply frame_refl ].
Qed.

Lemma frame_steps sts s : frame (this s) (this (steps css strs istrs sts s)).
Proof.
  revert s. induction sts as [|st sts IH]; intros s; simpl.
  - apply frame_refl.
  - eapply frame_trans; [apply (frame_step st) | apply IH].
Qed.

End LifetimeFrame.

(** ** The methods on a complete host *)

(** Runs a method whose adapter is known: the instance is opened, the
    adapter replaced by its value, and the binds computed. *)
Ltac on_host f H :=
  destruct f as [? ? ? ? ? ? ? ? ?]; simpl in H; subst;
  unfold call0, call1, call2, ask0, ask1, ask2, method, member, effect, query, field, assign;
  unfold mbind, mret, JS_bind, JS_ret, bind, ret; simpl.

Section HostEquations.
Variable css : CssClasses.
Variable strs : Strings.
Variable istrs : InputStrings.
Implicit Types (f : Foundation World) (w : World).

Lemma init_on_host f w :
  adapter_ f = hostAdapter strs →
  init css istrs (mkSt f w) = Normal tt (mkSt f (init_on css istrs f w)).
Proof.
  intros H. unfold init, init_on. on_host f H.
  destruct (bool_decide (value w = "")); reflexivity.
Qed.

Lemma destroy_on_host f w :
  adapter_ f = hostAdapter strs →
  destroy css istrs (mkSt f w) = Normal tt (mkSt f (destroy_on css istrs f w)).
Proof. intros H. unfold destroy, destroy_on. on_host f H. reflexivity. Qed.

Lemma handleTextFieldInteraction_on_host f w evt :
  adapter_ f = hostAdapter strs →
  handleTextFieldInteraction_ css evt (mkSt f w) =
  Normal tt (handleTextFieldInteraction_on css strs evt (mkSt f w)).
Proof.
  intros H. unfold handleTextFieldInteraction_, handleTextFieldInteraction_on, triggersNotification.
  on_host f H.
  destruct (truthy (disabledProperty w)); [reflexivity|]. simpl.
  destruct (classList_contains _ _ && _); reflexivity.
Qed.

Lemma activateFocus_on_host f w :
  adapter_ f = hostAdapter strs →
  activateFocus_ css strs (mkSt f w) = Normal tt (mkSt f (activateFocus_on css strs w)).
Proof. intros H. unfold activateFocus_, showHelptext_, activateFocus_on. on_host f H. reflexivity. Qed.

Lemma setBottomLineTransformOrigin_on_host f w evt :
  adapter_ f = hostAdapter strs →
  setBottomLineTransformOrigin_ evt (mkSt f w) =
  Normal tt (mkSt f (setBottomLineTransformOrigin_on evt w)).
Proof. intros H. unfold setBottomLineTransformOrigin_. on_host f H. reflexivity. Qed.

Lemma transitionEnd_on_host f w evt :
  adapter_ f = hostAdapter strs →
  transitionEnd_ css evt (mkSt f w) =
  Normal tt (mkSt f (transitionEnd_on css evt (isFocused_ f) w)).
Proof.
  intros H. unfold transitionEnd_, transitionEnd_on. on_host f H.
  destruct (strict_eq _ _ && _); reflexivity.
Qed.

Lemma updateHelptext_on_host f w isValid :
  adapter_ f = hostAdapter strs →
  updateHelptext_ css strs isValid (mkSt f w) =
  Normal tt (mkSt f (updateHelptext_on css strs isValid w)).
Proof.
  intros H. unfold updateHelptext_, hideHelptext_, updateHelptext_on. on_host f H.
  destruct (classList_contains (HELPTEXT_VALIDATION_MSG css) (helptext w) && negb isValid);
    simpl; destruct (classList_contains (HELPTEXT_PERSISTENT css) (helptext w)); reflexivity.
Qed.

Lemma changeValidity_on_host f w isValid :
  adapter_ f = hostAdapter strs →
  changeValidity_ css strs isValid (mkSt f w) =
  Normal tt (mkSt f (changeValidity_on css strs isValid w)).
Proof.
  intros H. unfold changeValidity_, changeValidity_on.
  pose proof (updateHelptext_on_host f) as Hu.
  on_host f H.
  destruct isValid; simpl; rewrite Hu; reflexivity.
Qed.

Lemma deactivateFocus_on_host f w :
  adapter_ f = hostAdapter strs →
  deactivateFocus_ css strs (mkSt f w) =
  Normal tt (mkSt f (deactivateFocus_on css strs (useCustomValidityChecking_ f) w)).
Proof.
  intros H. unfold deactivateFocus_, deactivateFocus_on, hasValidInput.
  pose proof (changeValidity_on_host f) as Hc.
  on_host f H.
  match goal with |- context [negb ?c] => destruct c end; simpl; [reflexivity|].
  rewrite Hc; reflexivity.
Qed.

Lemma setDisabled_on_host f w disabled :
  adapter_ f = hostAdapter strs →
  setDisabled css disabled (mkSt f w) = Normal tt (mkSt f (setDisabled_on css disabled w)).
Proof.
  intros H. unfold setDisabled, setDisabled_on, setIconAttr_on. on_host f H.
  destruct disabled; reflexivity.
Qed.

Lemma setValid_on_host f w isValid :
  adapter_ f = hostAdapter strs →
  setValid css strs isValid (mkSt f w) =
  Normal tt (mkSt (set_useCustomValidityChecking_ true f)
                  (changeValidity_on css strs isValid w)).
Proof.
  intros H. unfold setValid.
  pose proof (changeValidity_on_host (set_useCustomValidityChecking_ true f)) as Hc.
  on_host f H. rewrite Hc; reflexivity.
Qed.

(** Every step of the life of an instance over the complete host is its
    direct-style counterpart. *)
Lemma step_on_host st (s : St World) :
  adapter_ (this s) = hostAdapter strs →
  step css strs istrs st s = step_on css strs istrs st s.
Proof.
  intros H. destruct s as [f w]. simpl in H. destruct st; unfold step, step_on, run; cbn [this host].
  - rewrite init_on_host by exact H. reflexivity.
  - rewrite destroy_on_host by exact H. reflexivity.
  - rewrite activateFocus_on_host by exact H. reflexivity.
  - rewrite deactivateFocus_on_host by exact H. reflexivity.
  - rewrite setBottomLineTransformOrigin_on_host by exact H. reflexivity.
  - rewrite handleTextFieldInteraction_on_host by exact H. reflexivity.
  - rewrite transitionEnd_on_host by exact H. reflexivity.
  - rewrite setDisabled_on_host by exact H. reflexivity.
  - rewrite setValid_on_host by exact H. reflexivity.
  - reflexivity.
Qed.

End HostEquations.

(** ** Lifetime facts *)

Section LifetimeFacts.
Variable css : CssClasses.
Variable strs : Strings.
Variable istrs : InputStrings.

Lemma steps_app sts1 sts2 (s : St World) :
  steps css strs istrs (sts1 ++ sts2) s
  = steps css strs istrs sts2 (steps css strs istrs sts1 s).
Proof. unfold steps. apply foldl_app. Qed.

Lemma steps_cons st sts (s : St World) :
  steps css strs istrs (st :: sts) s = steps css strs istrs sts (step css strs istrs st s).
Proof. reflexivity. Qed.

(** The merged adapter of a foundation built over the complete host is
    the host's adapter: it supplies every property. *)
Lemma adapter_new_hostAdapter : adapter_ (new (hostAdapter strs)) = hostAdapter strs.
Proof. reflexivity. Qed.

(** The adapter stays the same for the whole life of the instance. *)
Lemma adapter_steps sts (s : St World) :
  adapter_ (this (steps css strs istrs sts s)) = adapter_ (this s).
Proof. apply (frame_steps css strs istrs sts s). Qed.

(** [isFocused_] is never written: whatever happens to an instance, it
    has the value it had at construction. *)
Lemma isFocused_steps sts (s : St World) :
  isFocused_ (this (steps css strs istrs sts s)) = isFocused_ (this s).
Proof. apply (frame_steps css strs istrs sts s). Qed.

(** Once custom validity checking is on, nothing in the life of the
    instance turns it off, whatever the adapter. *)
Lemma useCustomValidityChecking_steps sts (s : St World) :
  useCustomValidityChecking_ (this s) = true →
  useCustomValidityChecking_ (this (steps css strs istrs sts s)) = true.
Proof. apply (frame_steps css strs istrs sts s). Qed.

Lemma useCustomValidityChecking_setValid {W} b (s : St W) :
  useCustomValidityChecking_ (this (run (setValid css strs b) s)) = true.
Proof.
  unfold run, setValid, mbind, JS_bind, bind, assign.
  pose proof (stable_changeValidity_ css strs b
                (mkSt (set_useCustomValidityChecking_ true (this s)) (host s))) as H.
  simpl in *. destruct (changeValidity_ _ _ _ _); simpl in *; apply H; reflexivity.
Qed.

End LifetimeFacts.

(** ** C1: the bottom-line class and the transition end *)

(** What the transition-end handler does after any life of an instance
    built by the constructor: it removes the "active" class exactly when
    the property is [opacity]; whether the field is focused plays no
    part. *)
Lemma transitionEnd_after_any_history (css : CssClasses) (strs : Strings)
    (istrs : InputStrings) (sts : list Step) (w : World) (evt : Event) :
  let s := steps css strs istrs sts (mkSt (new (hostAdapter strs)) w) in
  classList (bottomLine (host (step css strs istrs (TransitionEnd evt) s))) =
  if strict_eq (evt_propertyName evt) (VStr "opacity")
  then classList (bottomLine (host s)) ∖ {[BOTTOM_LINE_ACTIVE css]}
  else classList (bottomLine (host s)).
Proof.
  intros s.
  assert (Ha : adapter_ (this s) = hostAdapter strs).
  { subst s. rewrite adapter_steps. reflexivity. }
  assert (Hf : isFocused_ (this s) = VUndefined).
  { subst s. rewrite isFocused_steps. reflexivity. }
  rewrite step_on_host by exact Ha. cbn [step_on host this].
  unfold transitionEnd_on. rewrite Hf.
  destruct (strict_eq (evt_propertyName evt) (VStr "opacity")); reflexivity.
Qed.

(** C1.  The claim: after any sequence of focus and blur events, the
    transition-end handler removes the bottom line's "active" class only
    when the property is [opacity] and the field is not focused, never
    while it is focused.  The code does not keep that promise:
    [isFocused_] is never assigned, so the guard [!this.isFocused_]
    always passes.  After any history of focus and blur events that ends
    with a focus, the host carries the "focused" class and the bottom
    line is active, and a transition end for [opacity] removes the
    "active" class all the same. *)
Theorem C1_transitionEnd_removes_active_while_focused
    (css : CssClasses) (strs : Strings) (istrs : InputStrings)
    (history : list bool) (w : World) :
  let s := steps css strs istrs (map focusOrBlur history ++ [Focus])
             (mkSt (new (hostAdapter strs)) w) in
  FOCUSED css ∈ classList (root (host s))
  ∧ BOTTOM_LINE_ACTIVE css ∈ classList (bottomLine (host s))
  ∧ (BOTTOM_LINE_ACTIVE css ∉
       classList (bottomLine (host (step css strs istrs (TransitionEnd (transitionend "opacity")) s)))).
Proof.
  intros s. subst s. rewrite steps_app.
  set (s1 := steps css strs istrs (map focusOrBlur history) _).
  assert (Ha : adapter_ (this s1) = hostAdapter strs).
  { subst s1. rewrite adapter_steps. reflexivity. }
  assert (Hf : isFocused_ (this s1) = VUndefined).
  { subst s1. rewrite isFocused_steps. reflexivity. }
  rewrite steps_cons, (step_on_host css strs istrs Focus s1 Ha).
  rewrite step_on_host by exact Ha.
  cbn [steps foldl step_on this host]. rewrite Hf.
  unfold transitionEnd_on, activateFocus_on. cbn.
  repeat apply conj; set_solver.
Qed.

(** ** The guard of [handleTextFieldInteraction_] *)

(** When the property [disabled] of the input controller is truthy,
    [handleTextFieldInteraction_] returns at once, for every event and
    every adapter that hands out an input controller: the instance and
    the host are exactly what they were. *)
Lemma handleTextFieldInteraction_returns_on_truthy_disabled {W : Type} (css : CssClasses)
    (f : Foundation W) (w : W) (getInput : W → option (Input.Foundation W))
    (inputF : Input.Foundation W) (evt : Event) :
  getInputFoundation (adapter_ f) = Some getInput →
  getInput w = Some inputF →
  truthy (Input.disabled inputF w) = true →
  handleTextFieldInteraction_ css evt (mkSt f w) = Normal tt (mkSt f w).
Proof.
  intros Hg Hi Hd.
  unfold handleTextFieldInteraction_, ask0, method, member, query.
  unfold mbind, JS_bind, bind. simpl.
  rewrite Hg. simpl. rewrite Hi. simpl. rewrite Hd. reflexivity.
Qed.

(** ** C3: [destroy()] after [init()] *)

Section Listeners.
Implicit Types (el : Element) (l : string * Handler).

Lemma addEventListener_elem t h el : (t, h) ∈ listeners (addEventListener t h el).
Proof. unfold addEventListener; simpl. case_bool_decide; set_solver. Qed.

Lemma addEventListener_mono l t h el :
  l ∈ listeners el → l ∈ listeners (addEventListener t h el).
Proof. unfold addEventListener; simpl. case_bool_decide; set_solver. Qed.

Lemma removeEventListener_not_elem t h el : (t, h) ∉ listeners (removeEventListener t h el).
Proof.
  unfold removeEventListener; simpl. rewrite list_elem_of_filter. tauto.
Qed.

Lemma removeEventListener_anti l t h el :
  l ∉ listeners el → l ∉ listeners (removeEventListener t h el).
Proof.
  unfold removeEventListener; simpl. rewrite list_elem_of_filter. tauto.
Qed.

End Listeners.

Section InitDestroy.
Variable css : CssClasses.
Variable strs : Strings.
Variable istrs : InputStrings.
Implicit Types (f : Foundation World) (w : World).

Lemma init_on_component_eq f w :
  adapter_ f = adapter_ (MDCTextfield.getDefaultFoundation strs) →
  init css istrs (mkSt f w) = Normal tt (mkSt f (init_on_component css istrs f w)).
Proof.
  intros H. unfold init, init_on_component. on_host f H.
  destruct (bool_decide (value w = "")); reflexivity.
Qed.

Lemma destroy_on_component_eq f w :
  adapter_ f = adapter_ (MDCTextfield.getDefaultFoundation strs) →
  destroy css istrs (mkSt f w) = Normal tt (mkSt f (destroy_on_component css istrs f w)).
Proof. intros H. unfold destroy, destroy_on_component. on_host f H. reflexivity. Qed.

(** On the component, for any page and any constants: the three
    handlers that [init()] attached to the input are still attached
    after [destroy()]. *)
(** In the component's adapter, deregistering on the input is the same
    function as registering. *)
Lemma component_deregister_is_register :
  deregisterInputInteractionHandler (MDCTextfield.componentAdapter strs)
  = registerInputInteractionHandler (MDCTextfield.componentAdapter strs).
Proof. reflexivity. Qed.

Lemma input_destroy_on_component f w :
  input (destroy_on_component css istrs f w) =
  addEventListener (PRESSED_EVENT istrs) (setPointerXOffset_ f)
    (addEventListener (BLUR_EVENT istrs) (inputBlurHandler_ f)
       (addEventListener (FOCUS_EVENT istrs) (inputFocusHandler_ f) (input w))).
Proof. reflexivity. Qed.

(** On the component, for any page and any constants: the three
    handlers that [init()] attached to the input are still attached
    after [destroy()]. *)
Lemma component_destroy_keeps_input_handlers f w :
  adapter_ f = adapter_ (MDCTextfield.getDefaultFoundation strs) →
  let s := steps css strs istrs [Init; Destroy] (mkSt f w) in
  (FOCUS_EVENT istrs, inputFocusHandler_ f) ∈ listeners (input (host s))
  ∧ (BLUR_EVENT istrs, inputBlurHandler_ f) ∈ listeners (input (host s))
  ∧ (PRESSED_EVENT istrs, setPointerXOffset_ f) ∈ listeners (input (host s)).
Proof.
  intros H s.
  assert (Hs : s = mkSt f (destroy_on_component css istrs f (init_on_component css istrs f w))).
  { subst s. rewrite steps_cons. simpl step. unfold run at 1.
    rewrite (init_on_component_eq f w H). cbn [final].
    rewrite steps_cons. simpl step. unfold run.
    rewrite (destroy_on_component_eq f _ H). reflexivity. }
  rewrite Hs. cbn [host]. rewrite input_destroy_on_component.
  repeat apply conj;
    repeat first [ apply addEventListener_elem | apply addEventListener_mono ].
Qed.

Lemma root_destroy_on f w :
  root (destroy_on css istrs f w) =
  removeEventListener "keydown" (textFieldInteractionHandler_ f)
    (removeEventListener "click" (textFieldInteractionHandler_ f)
       (classList_remove (UPGRADED css) (root w))).
Proof. reflexivity. Qed.

Lemma input_destroy_on f w :
  input (destroy_on css istrs f w) =
  removeEventListener (PRESSED_EVENT istrs) (setPointerXOffset_ f)
    (removeEventListener (BLUR_EVENT istrs) (inputBlurHandler_ f)
       (removeEventListener (FOCUS_EVENT istrs) (inputFocusHandler_ f) (input w))).
Proof. reflexivity. Qed.

Lemma bottomLine_destroy_on f w :
  bottomLine (destroy_on css istrs f w) =
  removeEventListener "transitionend" (transitionEndHandler_ f) (bottomLine w).
Proof. reflexivity. Qed.

(** On a complete host, whose deregistration detaches: none of the
    handlers that [init()] registered is attached after [destroy()], and
    the "upgraded" class is gone.  The foundation hands [destroy()] the
    very values it handed [init()]. *)
Lemma host_destroy_detaches_handlers f w :
  adapter_ f = hostAdapter strs →
  let s := steps css strs istrs [Init; Destroy] (mkSt f w) in
  (UPGRADED css ∉ classList (root (host s)))
  ∧ ((FOCUS_EVENT istrs, inputFocusHandler_ f) ∉ listeners (input (host s)))
  ∧ ((BLUR_EVENT istrs, inputBlurHandler_ f) ∉ listeners (input (host s)))
  ∧ ((PRESSED_EVENT istrs, setPointerXOffset_ f) ∉ listeners (input (host s)))
  ∧ (("click", textFieldInteractionHandler_ f) ∉ listeners (root (host s)))
  ∧ (("keydown", textFieldInteractionHandler_ f) ∉ listeners (root (host s)))
  ∧ (("transitionend", transitionEndHandler_ f) ∉ listeners (bottomLine (host s))).
Proof.
  intros H s.
  assert (Hs : s = mkSt f (destroy_on css istrs f (init_on css istrs f w))).
  { subst s. rewrite !steps_cons. rewrite (step_on_host css strs istrs Init) by exact H.
    rewrite (step_on_host css strs istrs Destroy) by exact H. reflexivity. }
  rewrite Hs. cbn [host].
  rewrite root_destroy_on, input_destroy_on, bottomLine_destroy_on.
  split; [cbn; set_solver|].
  repeat apply conj;
    repeat first [ apply removeEventListener_not_elem | apply removeEventListener_anti ].
Qed.

End InitDestroy.

(** C3.  The claim: [destroy()] after [init()] deregisters every handler
    with the value that was registered, removes the "upgraded" class and
    leaves no handler attached, so that later events change nothing.
    The foundation does its part, and on the component it is undone by
    the adapter of [getDefaultFoundation()], whose
    [deregisterInputInteractionHandler] calls [listen] as
    [registerInputInteractionHandler] does.  On a fresh page: after
    [init()] and [destroy()] the focus, blur and pressed handlers are
    still attached to the input (those on the root are detached), and a
    focus event on the input still runs [activateFocus_]: the root gets
    the "focused" class and the label is told to float.  On the complete
    host the same two calls leave nothing attached and the same event
    changes nothing. *)
Theorem C3_component_destroy_leaves_input_handlers :
  let run2 := steps mdc_cssClasses mdc_strings mdc_inputStrings [Init; Destroy] in
  let focus := dispatchEvent mdc_cssClasses mdc_strings input (inputEvent "focus") in
  let onComponent := run2 (mkSt (MDCTextfield.getDefaultFoundation mdc_strings) page) in
  let onHost := run2 (mkSt (new (hostAdapter mdc_strings)) page) in
  listeners (input (host onComponent))
    = [("focus", ActivateFocusClosure); ("blur", DeactivateFocusClosure);
       ("pointerdown", SetBottomLineTransformOriginClosure)]
  ∧ listeners (root (host onComponent)) = []
  ∧ classList (root (host onComponent)) = ∅
  ∧ classList (root (host (focus onComponent))) = {["mdc-textfield--focused"]}
  ∧ calls (host (focus onComponent)) = [Label_floatLabel]
  ∧ host (focus onComponent) ≠ host onComponent
  ∧ listeners (input (host onHost)) = []
  ∧ focus onHost = onHost.
Proof.
  intros run2 focus onComponent onHost.
  assert (Hnone : listeners (input (host onHost)) = []) by reflexivity.
  split; [reflexivity|]. split; [reflexivity|]. split; [reflexivity|].
  split; [reflexivity|]. split; [reflexivity|].
  split; [intros H; apply (f_equal calls) in H; discriminate H|].
  split; [exact Hnone|].
  subst focus. unfold dispatchEvent. rewrite Hnone. reflexivity.
Qed.

(** ** What the direct-style methods do to the root and to the calls *)

Section Projections.
Variable css : CssClasses.
Variable strs : Strings.
Variable istrs : InputStrings.
Implicit Types (f : Foundation World) (w : World).

Lemma root_updateHelptext_on b w : root (updateHelptext_on css strs b w) = root w.
Proof.
  unfold updateHelptext_on.
  destruct (classList_contains (HELPTEXT_VALIDATION_MSG css) (helptext w) && negb b);
    cbn [helptext on_helptext];
    destruct (classList_contains (HELPTEXT_PERSISTENT css) _); reflexivity.
Qed.

Lemma calls_updateHelptext_on b w : calls (updateHelptext_on css strs b w) = calls w.
Proof.
  unfold updateHelptext_on.
  destruct (classList_contains (HELPTEXT_VALIDATION_MSG css) (helptext w) && negb b);
    cbn [helptext on_helptext];
    destruct (classList_contains (HELPTEXT_PERSISTENT css) _); reflexivity.
Qed.

Lemma classList_root_changeValidity_on b w :
  classList (root (changeValidity_on css strs b w)) =
  if b then classList (root w) ∖ {[INVALID css]} else {[INVALID css]} ∪ classList (root w).
Proof.
  unfold changeValidity_on. cbv zeta. rewrite root_updateHelptext_on.
  destruct b; reflexivity.
Qed.

Lemma calls_changeValidity_on b w :
  calls (changeValidity_on css strs b w) = calls w ++ [Label_changeValidity b].
Proof.
  unfold changeValidity_on. cbv zeta. rewrite calls_updateHelptext_on.
  destruct b; reflexivity.
Qed.

Lemma classList_root_deactivateFocus_on custom w :
  classList (root (deactivateFocus_on css strs custom w)) =
  let unfocused := classList (root w) ∖ {[FOCUSED css]} in
  if custom then unfocused
  else if validity w then unfocused ∖ {[INVALID css]} else {[INVALID css]} ∪ unfocused.
Proof.
  unfold deactivateFocus_on. cbv zeta. destruct custom; [reflexivity|].
  rewrite classList_root_changeValidity_on. reflexivity.
Qed.

Lemma calls_deactivateFocus_on custom w :
  calls (deactivateFocus_on css strs custom w) =
  calls w ++ Label_deactivateFocus (hasValidInput w)
          :: (if custom then [] else [Label_changeValidity (validity w)]).
Proof.
  unfold deactivateFocus_on. cbv zeta. destruct custom; [reflexivity|].
  rewrite calls_changeValidity_on. cbn [calls record validity on_root].
  rewrite <- app_assoc. reflexivity.
Qed.

Lemma classList_root_init_on f w :
  classList (root (init_on css istrs f w)) = {[UPGRADED css]} ∪ classList (root w).
Proof. unfold init_on. destruct (truthy (VStr (value w))); reflexivity. Qed.

Lemma calls_init_on f w :
  calls (init_on css istrs f w) =
  calls w ++ (if truthy (VStr (value w)) then [Label_floatLabel] else []).
Proof.
  unfold init_on. destruct (truthy (VStr (value w))); cbn; [reflexivity|].
  symmetry; apply app_nil_r.
Qed.

Lemma root_setIconAttr_on name v w : root (setIconAttr_on name v w) = root w.
Proof. unfold setIconAttr_on. destruct (icon w); reflexivity. Qed.

Lemma calls_setIconAttr_on name v w : calls (setIconAttr_on name v w) = calls w.
Proof. unfold setIconAttr_on. destruct (icon w); reflexivity. Qed.

Lemma icon_setIconAttr_on name v w :
  icon (setIconAttr_on name v w) = setAttribute name v <$> icon w.
Proof.
  unfold setIconAttr_on. destruct (icon w) eqn:E; cbn [icon on_icon]; rewrite E; reflexivity.
Qed.

Lemma classList_root_setDisabled_on b w :
  classList (root (setDisabled_on css b w)) =
  if b then {[DISABLED css]} ∪ classList (root w) else classList (root w) ∖ {[DISABLED css]}.
Proof.
  unfold setDisabled_on. cbv zeta. destruct b; rewrite root_setIconAttr_on; reflexivity.
Qed.

Lemma calls_setDisabled_on b w :
  calls (setDisabled_on css b w) = calls w ++ [Input_setDisabled b].
Proof.
  unfold setDisabled_on. cbv zeta. destruct b; rewrite calls_setIconAttr_on; reflexivity.
Qed.

Lemma icon_setDisabled_on b w :
  icon (setDisabled_on css b w) =
  setAttribute "tabindex" (if b then "-1" else "0") <$> icon w.
Proof.
  unfold setDisabled_on. cbv zeta. destruct b; rewrite icon_setIconAttr_on; reflexivity.
Qed.

Lemma root_transitionEnd_on evt v w : root (transitionEnd_on css evt v w) = root w.
Proof. unfold transitionEnd_on. destruct (_ && _); reflexivity. Qed.

Lemma root_handleTextFieldInteraction_on evt (s : St World) :
  root (host (handleTextFieldInteraction_on css strs evt s)) = root (host s).
Proof.
  unfold handleTextFieldInteraction_on.
  destruct (truthy _); [reflexivity|]. cbn [host].
  destruct (triggersNotification css evt); reflexivity.
Qed.

(** The class list of the root after a step, from the one before: the
    text field as a machine over its host classes. *)
Lemma classList_root_step_on st (s : St World) :
  classList (root (host (step_on css strs istrs st s))) =
  let before := classList (root (host s)) in
  match st with
  | Init => {[UPGRADED css]} ∪ before
  | Destroy => before ∖ {[UPGRADED css]}
  | Focus => {[FOCUSED css]} ∪ before
  | Blur =>
      if useCustomValidityChecking_ (this s) then before ∖ {[FOCUSED css]}
      else if validity (host s) then (before ∖ {[FOCUSED css]}) ∖ {[INVALID css]}
           else {[INVALID css]} ∪ (before ∖ {[FOCUSED css]})
  | SetDisabled b => if b then {[DISABLED css]} ∪ before else before ∖ {[DISABLED css]}
  | SetValid b => if b then before ∖ {[INVALID css]} else {[INVALID css]} ∪ before
  | Pressed _ | Interaction _ | TransitionEnd _ | NativeInput _ _ _ _ => before
  end.
Proof.
  destruct st; unfold step_on; cbv zeta; cbn [host this].
  - apply classList_root_init_on.
  - reflexivity.
  - reflexivity.
  - apply classList_root_deactivateFocus_on.
  - reflexivity.
  - rewrite root_handleTextFieldInteraction_on. reflexivity.
  - rewrite root_transitionEnd_on. reflexivity.
  - apply classList_root_setDisabled_on.
  - apply classList_root_changeValidity_on.
  - reflexivity.
Qed.

End Projections.

(** ** C4: manual validity is sticky *)

Section ManualValidity.
Variable css : CssClasses.
Variable strs : Strings.
Variable istrs : InputStrings.
Lemma setValid_false_establishes (s : St World) :
  adapter_ (this s) = hostAdapter strs →
  manually_invalid css strs (run (setValid css strs false) s).
Proof.
  intros H. change (manually_invalid css strs (step css strs istrs (SetValid false) s)).
  unfold manually_invalid. repeat apply conj.
  - rewrite <- H. apply (frame_step css strs istrs (SetValid false) s).
  - apply (useCustomValidityChecking_setValid css strs false s).
  - rewrite step_on_host by exact H. rewrite classList_root_step_on. cbv zeta. set_solver.
Qed.

Hypothesis INVALID_distinct : INVALID css ∉ [UPGRADED css; FOCUSED css; DISABLED css].

Lemma manually_invalid_step st (s : St World) :
  st ≠ SetValid true →
  manually_invalid css strs s → manually_invalid css strs (step css strs istrs st s).
Proof.
  intros Hst (Ha & Hc & Hi). unfold manually_invalid. repeat apply conj.
  - rewrite <- Ha. apply (frame_step css strs istrs st s).
  - apply (frame_step css strs istrs st s). exact Hc.
  - rewrite step_on_host by exact Ha. rewrite classList_root_step_on. cbv zeta.
    rewrite Hc.
    destruct st as [| | | | | | |[]|[]|]; try congruence; set_solver.
Qed.

Lemma manually_invalid_steps sts (s : St World) :
  SetValid true ∉ sts →
  manually_invalid css strs s → manually_invalid css strs (steps css strs istrs sts s).
Proof.
  revert s. induction sts as [|st sts IH]; intros s Hn Hs; [exact Hs|].
  rewrite steps_cons. apply IH; [set_solver|].
  apply manually_invalid_step; [set_solver | exact Hs].
Qed.

End ManualValidity.

(** C4.  After [setValid(b)], [useCustomValidityChecking_] is true and
    stays true through everything that can happen to the instance
    afterwards.  After [setValid(false)] the root carries the "invalid"
    class, and carries it after every later sequence of steps that does
    not call [setValid(true)]: blurs, whatever the native
    [checkValidity()] answers then, focus, interactions, transition
    ends, [setDisabled], [init], [destroy].  (The class constants are
    taken to be distinct where a removal of another class would
    otherwise remove "invalid".) *)
Theorem C4_setValid_is_sticky (css : CssClasses) (strs : Strings) (istrs : InputStrings)
    (b : bool) (s : St World) (sts : list Step) :
  adapter_ (this s) = hostAdapter strs →
  INVALID css ∉ [UPGRADED css; FOCUSED css; DISABLED css] →
  let s1 := run (setValid css strs b) s in
  useCustomValidityChecking_ (this s1) = true
  ∧ useCustomValidityChecking_ (this (steps css strs istrs sts s1)) = true
  ∧ (b = false →
     INVALID css ∈ classList (root (host s1))
     ∧ (SetValid true ∉ sts →
        INVALID css ∈ classList (root (host (steps css strs istrs sts s1))))).
Proof.
  intros Ha Hd s1.
  assert (Hc : useCustomValidityChecking_ (this s1) = true)
    by apply useCustomValidityChecking_setValid.
  repeat apply conj.
  - exact Hc.
  - apply useCustomValidityChecking_steps, Hc.
  - intros ->.
    pose proof (setValid_false_establishes css strs istrs s Ha) as Hs1. fold s1 in Hs1.
    split; [apply Hs1|].
    intros Hn. apply (manually_invalid_steps css strs istrs Hd sts s1 Hn Hs1).
Qed.

(** C4 on the complete host: [setValid(false)] on a fresh page, then
    typing a valid value, focus, blur, a click on the icon,
    [setDisabled(true)] and another blur. *)
Lemma C4_witness :
  let sts := [NativeInput "abc" false true (VBool false); Focus; Blur;
              Interaction (click (iconTarget mdc_cssClasses)); SetDisabled true; Blur] in
  let s1 := run (setValid mdc_cssClasses mdc_strings false)
              (mkSt (new (hostAdapter mdc_strings)) page) in
  adapter_ (this (mkSt (new (hostAdapter mdc_strings)) page)) = hostAdapter mdc_strings
  ∧ (INVALID mdc_cssClasses ∉ [UPGRADED mdc_cssClasses; FOCUSED mdc_cssClasses;
                                DISABLED mdc_cssClasses])
  ∧ useCustomValidityChecking_ (this s1) = true
  ∧ useCustomValidityChecking_
      (this (steps mdc_cssClasses mdc_strings mdc_inputStrings sts s1)) = true
  ∧ (false = false →
     INVALID mdc_cssClasses ∈ classList (root (host s1))
     ∧ (SetValid true ∉ sts →
        INVALID mdc_cssClasses
        ∈ classList (root (host (steps mdc_cssClasses mdc_strings mdc_inputStrings sts s1))))).
Proof.
  cbv zeta.
  assert (Hd : INVALID mdc_cssClasses ∉ [UPGRADED mdc_cssClasses; FOCUSED mdc_cssClasses;
                                         DISABLED mdc_cssClasses]).
  { apply (bool_decide_unpack _). vm_compute. exact I. }
  split; [reflexivity|]. split; [exact Hd|].
  exact (C4_setValid_is_sticky mdc_cssClasses mdc_strings mdc_inputStrings false
           (mkSt (new (hostAdapter mdc_strings)) page)
           [NativeInput "abc" false true (VBool false); Focus; Blur;
            Interaction (click (iconTarget mdc_cssClasses)); SetDisabled true; Blur]
           eq_refl Hd).
Defined.

(** ** C5: the help-text update *)

Section Helptext.
Variable css : CssClasses.
Variable strs : Strings.

Lemma attributes_helptext_updateHelptext_on b w :
  attributes (helptext (updateHelptext_on css strs b w)) =
  let before := attributes (helptext w) in
  if classList_contains (HELPTEXT_VALIDATION_MSG css) (helptext w) && negb b
  then <[ROLE strs := "alert"]> before
  else if classList_contains (HELPTEXT_PERSISTENT css) (helptext w)
       then delete (ROLE strs) before
       else <[ARIA_HIDDEN strs := "true"]> (delete (ROLE strs) before).
Proof.
  unfold updateHelptext_on. cbv zeta.
  destruct (classList_contains (HELPTEXT_VALIDATION_MSG css) (helptext w) && negb b);
    destruct (classList_contains (HELPTEXT_PERSISTENT css) (helptext w)); reflexivity.
Qed.

End Helptext.

(** C5, as amended.  Given validity [isValid], the help-text update:
    when the help text carries the validation-message class and
    [isValid] is false, sets the role attribute to "alert" and touches
    nothing else (the [aria-hidden] marker stays as it was; it is not
    cleared); otherwise it removes the role attribute; and it sets
    [aria-hidden] to "true" exactly when the help text is neither
    persistent nor a validation message needing display. *)
Theorem C5_updateHelptext_amended (css : CssClasses) (strs : Strings)
    (f : Foundation World) (w : World) (isValid : bool) :
  adapter_ f = hostAdapter strs →
  let persistent := HELPTEXT_PERSISTENT css ∈ classList (helptext w) in
  let needsDisplay :=
    HELPTEXT_VALIDATION_MSG css ∈ classList (helptext w) ∧ isValid = false in
  let before := attributes (helptext w) in
  let after :=
    attributes (helptext (host (run (updateHelptext_ css strs isValid) (mkSt f w)))) in
  (needsDisplay → after = <[ROLE strs := "alert"]> before)
  ∧ (¬ needsDisplay → persistent → after = delete (ROLE strs) before)
  ∧ (¬ needsDisplay → ¬ persistent →
     after = <[ARIA_HIDDEN strs := "true"]> (delete (ROLE strs) before)).
Proof.
  intros H persistent needsDisplay before after.
  assert (Hafter : after = attributes (helptext (updateHelptext_on css strs isValid w))).
  { subst after. unfold run. rewrite updateHelptext_on_host by exact H. reflexivity. }
  rewrite Hafter, attributes_helptext_updateHelptext_on. cbv zeta.
  subst persistent needsDisplay before. unfold classList_contains.
  repeat case_bool_decide; destruct isValid; cbn [andb negb];
    repeat apply conj; intros; try reflexivity; naive_solver.
Qed.

(** C5 on the complete host: the update for an invalid field whose
    help text is a validation message. *)
Lemma C5_witness :
  adapter_ (new (hostAdapter mdc_strings)) = hostAdapter mdc_strings
  ∧ let after :=
      attributes (helptext (host (run (updateHelptext_ mdc_cssClasses mdc_strings false)
                                    (mkSt (new (hostAdapter mdc_strings)) hiddenValidationPage)))) in
    let before := attributes (helptext hiddenValidationPage) in
    let persistent :=
      HELPTEXT_PERSISTENT mdc_cssClasses ∈ classList (helptext hiddenValidationPage) in
    let needsDisplay :=
      HELPTEXT_VALIDATION_MSG mdc_cssClasses ∈ classList (helptext hiddenValidationPage)
      ∧ false = false in
    (needsDisplay → after = <[ROLE mdc_strings := "alert"]> before)
    ∧ (¬ needsDisplay → persistent → after = delete (ROLE mdc_strings) before)
    ∧ (¬ needsDisplay → ¬ persistent →
       after = <[ARIA_HIDDEN mdc_strings := "true"]> (delete (ROLE mdc_strings) before)).
Proof.
  split; [reflexivity|].
  exact (C5_updateHelptext_amended mdc_cssClasses mdc_strings (new (hostAdapter mdc_strings))
           hiddenValidationPage false eq_refl).
Defined.

(** C5, as claimed, fails.  The help text is a validation message that
    the markup hides ([aria-hidden="true"]); the field is invalid.  The
    update sets the role to "alert" and leaves [aria-hidden="true"] in
    place, where the claim has the marker cleared. *)
Lemma C5_counterexample_aria_hidden_not_cleared :
  let after :=
    attributes (helptext (host (run (updateHelptext_ mdc_cssClasses mdc_strings false)
                                  (mkSt (new (hostAdapter mdc_strings)) hiddenValidationPage)))) in
  let specified :=
    helptext_attributes_specified mdc_cssClasses mdc_strings false
      (helptext hiddenValidationPage) in
  after !! "role" = Some "alert"
  ∧ after !! "aria-hidden" = Some "true"
  ∧ specified !! "aria-hidden" = None
  ∧ after ≠ specified.
Proof.
  intros after specified.
  assert (H1 : after !! "aria-hidden" = Some "true") by reflexivity.
  assert (H2 : specified !! "aria-hidden" = None) by reflexivity.
  split; [reflexivity|]. split; [exact H1|]. split; [exact H2|].
  intros E. rewrite E in H1. rewrite H1 in H2. discriminate H2.
Qed.

(** ** C6: when the icon action is notified *)

Section IconAction.
Variable css : CssClasses.

Lemma triggersNotification_true evt :
  triggersNotification css evt = true ↔
  TEXT_FIELD_ICON css ∈ classList (evt_target evt)
  ∧ (evt_type evt = "click" ∨ evt_key evt = VStr "Enter" ∨ evt_keyCode evt = VNum 13).
Proof.
  unfold triggersNotification, classList_contains, strict_eq.
  rewrite andb_true_iff, !orb_true_iff, !bool_decide_eq_true. tauto.
Qed.

End IconAction.

(** C6.  With the input enabled, [handleTextFieldInteraction_] calls
    [notifyIconAction] once, and only then, when the event target
    carries the icon class and the event is a click, or its key is
    "Enter", or its key code is 13; in every other case (a keydown with
    another key among them) it calls nothing. *)
Theorem C6_notifyIconAction_iff (css : CssClasses) (strs : Strings)
    (f : Foundation World) (w : World) (evt : Event) :
  adapter_ f = hostAdapter strs →
  truthy (disabledProperty w) = false →
  let fires :=
    TEXT_FIELD_ICON css ∈ classList (evt_target evt)
    ∧ (evt_type evt = "click" ∨ evt_key evt = VStr "Enter" ∨ evt_keyCode evt = VNum 13) in
  let after := calls (host (run (handleTextFieldInteraction_ css evt) (mkSt f w))) in
  (fires ↔ after = calls w ++ [Emit (ICON_EVENT strs)])
  ∧ (¬ fires ↔ after = calls w).
Proof.
  intros H Hen fires after.
  assert (Hafter : after = if triggersNotification css evt
                           then calls w ++ [Emit (ICON_EVENT strs)] else calls w).
  { subst after. unfold run. rewrite (handleTextFieldInteraction_on_host css strs f w evt H).
    unfold handleTextFieldInteraction_on. cbn [final host this]. rewrite Hen. cbn [host].
    destruct (triggersNotification css evt); reflexivity. }
  pose proof (triggersNotification_true css evt) as Ht. fold fires in Ht.
  assert (Hne : calls w ++ [Emit (ICON_EVENT strs)] ≠ calls w).
  { intros E. apply (f_equal length) in E. rewrite length_app in E. simpl in E. lia. }
  rewrite Hafter. destruct (triggersNotification css evt).
  - assert (fires) by (apply Ht; reflexivity).
    split; split; try tauto; intros E; symmetry in E; contradiction.
  - assert (¬ fires) by (intros Hf; apply Ht in Hf; discriminate Hf).
    split; split; try tauto; intros E; symmetry in E; contradiction.
Qed.

(** C6 on the complete host: Enter pressed on the icon of an enabled
    field. *)
Lemma C6_witness :
  adapter_ (new (hostAdapter mdc_strings)) = hostAdapter mdc_strings
  ∧ truthy (disabledProperty page) = false
  ∧ let evt := keydown (iconTarget mdc_cssClasses) "Enter" 13 in
    let fires :=
      TEXT_FIELD_ICON mdc_cssClasses ∈ classList (evt_target evt)
      ∧ (evt_type evt = "click" ∨ evt_key evt = VStr "Enter" ∨ evt_keyCode evt = VNum 13) in
    let after := calls (host (run (handleTextFieldInteraction_ mdc_cssClasses evt)
                                (mkSt (new (hostAdapter mdc_strings)) page))) in
    (fires ↔ after = calls page ++ [Emit (ICON_EVENT mdc_strings)])
    ∧ (¬ fires ↔ after = calls page).
Proof.
  split; [reflexivity|]. split; [reflexivity|].
  exact (C6_notifyIconAction_iff mdc_cssClasses mdc_strings (new (hostAdapter mdc_strings))
           page (keydown (iconTarget mdc_cssClasses) "Enter" 13) eq_refl eq_refl).
Defined.

(** ** C7: the label and a pre-filled value *)

(** C7.  [init()] returns, and while it runs the label controller's
    [floatLabel()] is called once when the input's [getValue()] is a
    non-empty string, and not at all when it is empty. *)
Theorem C7_init_floats_label_iff_prefilled (css : CssClasses) (strs : Strings)
    (istrs : InputStrings) (f : Foundation World) (w : World) :
  adapter_ f = hostAdapter strs →
  let r := init css istrs (mkSt f w) in
  completed r = true
  ∧ (value w ≠ "" → calls (host (final r)) = calls w ++ [Label_floatLabel])
  ∧ (value w = "" → calls (host (final r)) = calls w).
Proof.
  intros H r. subst r. rewrite (init_on_host css strs istrs f w H).
  cbn [completed final host]. rewrite calls_init_on. cbn [truthy].
  split; [reflexivity|].
  case_bool_decide; cbn [negb]; split; intros; try congruence; try reflexivity.
  apply app_nil_r.
Qed.

(** C7 on the complete host: [init()] on a page whose input holds
    "hello". *)
Lemma C7_witness :
  let w := set_native "hello" false true (VBool false) page in
  adapter_ (new (hostAdapter mdc_strings)) = hostAdapter mdc_strings
  ∧ let r := init mdc_cssClasses mdc_inputStrings (mkSt (new (hostAdapter mdc_strings)) w) in
    completed r = true
    ∧ (value w ≠ "" → calls (host (final r)) = calls w ++ [Label_floatLabel])
    ∧ (value w = "" → calls (host (final r)) = calls w).
Proof.
  cbv zeta. split; [reflexivity|].
  exact (C7_init_floats_label_iff_prefilled mdc_cssClasses mdc_strings mdc_inputStrings
           (new (hostAdapter mdc_strings)) (set_native "hello" false true (VBool false) page)
           eq_refl).
Defined.

(** ** C8: blur *)

Lemma hasValidInput_true (w : World) :
  hasValidInput w = true ↔ value w = "" ∧ badInput w = false.
Proof.
  unfold hasValidInput. cbn [truthy].
  rewrite andb_true_iff, !negb_true_iff, negb_false_iff, bool_decide_eq_true. tauto.
Qed.

(** C8.  On blur, [deactivateFocus_] removes the "focused" class from
    the root and calls the label controller's [deactivateFocus] once,
    with an argument that is true exactly when the input's value is
    empty and [isBadInput()] is false; the only other call it makes on
    a child controller is the label's [changeValidity], when validity is
    not managed manually.  (The "invalid" and "focused" constants are
    taken to be different classes.) *)
Theorem C8_blur_reports_valid_input (css : CssClasses) (strs : Strings)
    (f : Foundation World) (w : World) :
  adapter_ f = hostAdapter strs →
  INVALID css ≠ FOCUSED css →
  let s' := run (deactivateFocus_ css strs) (mkSt f w) in
  (FOCUSED css ∉ classList (root (host s')))
  ∧ ∃ hasValidInput : bool,
      (hasValidInput = true ↔ value w = "" ∧ badInput w = false)
      ∧ calls (host s') =
        calls w ++ Label_deactivateFocus hasValidInput
                :: (if useCustomValidityChecking_ f then []
                    else [Label_changeValidity (validity w)]).
Proof.
  intros H Hne s'.
  assert (Hs : s' = mkSt f (deactivateFocus_on css strs (useCustomValidityChecking_ f) w)).
  { subst s'. unfold run. rewrite deactivateFocus_on_host by exact H. reflexivity. }
  rewrite Hs. cbn [host]. split.
  - rewrite classList_root_deactivateFocus_on. cbv zeta.
    destruct (useCustomValidityChecking_ f); [|destruct (validity w)]; set_solver.
  - exists (hasValidInput w). split; [apply hasValidInput_true|].
    apply calls_deactivateFocus_on.
Qed.

(** C8 on the complete host: a blur on a fresh page. *)
Lemma C8_witness :
  let s' := run (deactivateFocus_ mdc_cssClasses mdc_strings)
              (mkSt (new (hostAdapter mdc_strings)) page) in
  adapter_ (new (hostAdapter mdc_strings)) = hostAdapter mdc_strings
  ∧ INVALID mdc_cssClasses ≠ FOCUSED mdc_cssClasses
  ∧ (FOCUSED mdc_cssClasses ∉ classList (root (host s')))
  ∧ ∃ hasValidInput : bool,
      (hasValidInput = true ↔ value page = "" ∧ badInput page = false)
      ∧ calls (host s') =
        calls page ++ Label_deactivateFocus hasValidInput
                   :: (if useCustomValidityChecking_ (new (hostAdapter mdc_strings)) then []
                       else [Label_changeValidity (validity page)]).
Proof.
  cbv zeta.
  assert (Hne : INVALID mdc_cssClasses ≠ FOCUSED mdc_cssClasses) by (vm_compute; discriminate).
  split; [reflexivity|]. split; [exact Hne|].
  exact (C8_blur_reports_valid_input mdc_cssClasses mdc_strings (new (hostAdapter mdc_strings))
           page eq_refl Hne).
Defined.

(** ** C9: disabling and enabling *)

(** C9.  [setDisabled(true)] followed by [setDisabled(false)]: the
    "disabled" class is on the root after the first call and off after
    the second, the rest of the class list being what it was; the
    icon's [tabindex] is "-1" after the first call and "0" after the
    second; and the input controller's [setDisabled] has been called
    with [true], then with [false], and with nothing else. *)
Theorem C9_setDisabled_round_trip (css : CssClasses) (strs : Strings)
    (f : Foundation World) (w : World) (el : Element) :
  adapter_ f = hostAdapter strs →
  icon w = Some el →
  let s1 := run (setDisabled css true) (mkSt f w) in
  let s2 := run (setDisabled css false) s1 in
  DISABLED css ∈ classList (root (host s1))
  ∧ (DISABLED css ∉ classList (root (host s2)))
  ∧ classList (root (host s2)) = classList (root w) ∖ {[DISABLED css]}
  ∧ attributes <$> icon (host s1) = Some (<["tabindex" := "-1"]> (attributes el))
  ∧ attributes <$> icon (host s2) = Some (<["tabindex" := "0"]> (attributes el))
  ∧ calls (host s1) = calls w ++ [Input_setDisabled true]
  ∧ calls (host s2) = calls w ++ [Input_setDisabled true; Input_setDisabled false].
Proof.
  intros H Hicon s1 s2.
  assert (Hs1 : s1 = mkSt f (setDisabled_on css true w)).
  { subst s1. unfold run. rewrite (setDisabled_on_host css strs f w true H). reflexivity. }
  assert (Hs2 : s2 = mkSt f (setDisabled_on css false (setDisabled_on css true w))).
  { subst s2. rewrite Hs1. unfold run.
    rewrite (setDisabled_on_host css strs f _ false H). reflexivity. }
  rewrite Hs1, Hs2. cbn [host].
  rewrite !classList_root_setDisabled_on, !icon_setDisabled_on, !calls_setDisabled_on, Hicon.
  repeat apply conj.
  - set_solver.
  - set_solver.
  - set_solver.
  - reflexivity.
  - cbn. f_equal. apply insert_insert_eq.
  - reflexivity.
  - rewrite <- app_assoc. reflexivity.
Qed.

(** C9 on the complete host: a fresh page with an icon. *)
Lemma C9_witness :
  let s1 := run (setDisabled mdc_cssClasses true) (mkSt (new (hostAdapter mdc_strings)) page) in
  let s2 := run (setDisabled mdc_cssClasses false) s1 in
  adapter_ (new (hostAdapter mdc_strings)) = hostAdapter mdc_strings
  ∧ icon page = Some blank
  ∧ DISABLED mdc_cssClasses ∈ classList (root (host s1))
  ∧ (DISABLED mdc_cssClasses ∉ classList (root (host s2)))
  ∧ classList (root (host s2)) = classList (root page) ∖ {[DISABLED mdc_cssClasses]}
  ∧ attributes <$> icon (host s1) = Some (<["tabindex" := "-1"]> (attributes blank))
  ∧ attributes <$> icon (host s2) = Some (<["tabindex" := "0"]> (attributes blank))
  ∧ calls (host s1) = calls page ++ [Input_setDisabled true]
  ∧ calls (host s2) = calls page ++ [Input_setDisabled true; Input_setDisabled false].
Proof.
  cbv zeta. split; [reflexivity|]. split; [reflexivity|].
  exact (C9_setDisabled_round_trip mdc_cssClasses mdc_strings (new (hostAdapter mdc_strings))
           page blank eq_refl eq_refl).
Defined.

(** ** C10: the default adapter alone *)

Section DefaultAdapter.
Context {W : Type}.
Variable css : CssClasses.
Variable istrs : InputStrings.

(** An adapter that supplies no [registerInputInteractionHandler] gets
    none from the default adapter either. *)
Lemma new_lacks_registerInputInteractionHandler (a : Adapter W) :
  registerInputInteractionHandler a = None →
  registerInputInteractionHandler (adapter_ (new a)) = None.
Proof. intros H. cbn. rewrite H. reflexivity. Qed.

(** Without that capability [init()] does not return, whatever else
    the adapter supplies: if nothing earlier throws, the first
    registration does. *)
Lemma init_needs_registerInputInteractionHandler (f : Foundation W) (w : W) :
  registerInputInteractionHandler (adapter_ f) = None →
  completed (init css istrs (mkSt f w)) = false.
Proof.
  intros H. unfold init, call1, call2, ask0, method, member, effect, query, field.
  unfold mbind, mret, JS_bind, JS_ret, bind, ret. cbn [this host].
  repeat (cbn [this host completed]; rewrite ?H;
          match goal with
          | |- context [match ?o with Some _ => _ | None => _ end] =>
              lazymatch o with
              | context [match _ with _ => _ end] => fail
              | _ => destruct o
              end
          | |- context [if ?b then _ else _] => destruct b
          end);
    cbn [this host completed]; rewrite ?H; reflexivity.
Qed.

End DefaultAdapter.

(** C10.  A foundation constructed with no adapter has the default
    adapter alone.  That adapter has no
    [registerInputInteractionHandler] and no
    [deregisterInputInteractionHandler], and its [getInputFoundation]
    returns [undefined].  So [init()] throws: at
    [getInputFoundation().getValue()], the first use, with only the
    (empty) [addClass] done before; and an adapter that supplied an
    input controller but still no [registerInputInteractionHandler]
    would throw no later than the first registration. *)
Theorem C10_default_adapter_init_throws {W : Type} (css : CssClasses) (istrs : InputStrings) :
  let f := new (W:=W) emptyAdapter in
  adapter_ f = defaultAdapter
  ∧ registerInputInteractionHandler (adapter_ f) = None
  ∧ deregisterInputInteractionHandler (adapter_ f) = None
  ∧ (∃ g, getInputFoundation (adapter_ f) = Some g ∧ ∀ w, g w = None)
  ∧ (∀ w, init css istrs (mkSt f w) = Throw (PropertyOfUndefined "getValue") (mkSt f w))
  ∧ (∀ (a : Adapter W) (w : W),
       registerInputInteractionHandler a = None →
       completed (init css istrs (mkSt (new a) w)) = false).
Proof.
  intros f. repeat apply conj; try reflexivity.
  - eexists. split; [reflexivity|]. reflexivity.
  - intros a w Ha. apply init_needs_registerInputInteractionHandler.
    apply new_lacks_registerInputInteractionHandler, Ha.
Qed.

(** * Further properties of the foundation *)

(** ** Focus, blur and validity on a complete host *)

Section FocusAndValidity.
Variable css : CssClasses.
Variable strs : Strings.
Variable istrs : InputStrings.
Implicit Types (f : Foundation World) (w : World) (s : St World).

(** Only [setValid] writes [useCustomValidityChecking_]. *)
Lemma step_keeps_useCustomValidityChecking_ st s :
  adapter_ (this s) = hostAdapter strs →
  isSetValid st = false →
  useCustomValidityChecking_ (this (step css strs istrs st s))
  = useCustomValidityChecking_ (this s).
Proof.
  intros H Hst. rewrite step_on_host by exact H.
  destruct st; try discriminate Hst; try reflexivity.
  cbn [step_on]. unfold handleTextFieldInteraction_on.
  destruct (truthy _); reflexivity.
Qed.

Lemma steps_keep_useCustomValidityChecking_ sts s :
  adapter_ (this s) = hostAdapter strs →
  Forall (fun st => isSetValid st = false) sts →
  useCustomValidityChecking_ (this (steps css strs istrs sts s))
  = useCustomValidityChecking_ (this s).
Proof.
  intros H Hall. revert s H. induction Hall as [|st sts Hst _ IH]; intros s H; [reflexivity|].
  rewrite steps_cons, IH.
  - apply step_keeps_useCustomValidityChecking_; assumption.
  - rewrite <- H. apply (frame_step css strs istrs st s).
Qed.

(** X1.  After any sequence of focus and blur events, the root carries
    the "focused" class exactly when the last event was a focus.  (The
    "invalid" class, which a blur may add, is taken to be another class
    than "focused".) *)
Theorem focused_iff_last_event_was_focus (history : list bool) (last : bool) s :
  adapter_ (this s) = hostAdapter strs →
  INVALID css ≠ FOCUSED css →
  FOCUSED css ∈
    classList (root (host (steps css strs istrs (map focusOrBlur (history ++ [last])) s)))
  ↔ last = true.
Proof.
  intros H Hne. rewrite map_app, steps_app.
  set (s1 := steps css strs istrs (map focusOrBlur history) s).
  assert (H1 : adapter_ (this s1) = hostAdapter strs).
  { subst s1. rewrite adapter_steps. exact H. }
  cbn [map]. rewrite steps_cons. cbn [steps foldl].
  rewrite step_on_host by exact H1. rewrite classList_root_step_on. cbv zeta.
  destruct last; cbn [focusOrBlur].
  - split; [reflexivity | set_solver].
  - split; [|discriminate]. intros Hin. exfalso.
    destruct (useCustomValidityChecking_ (this s1)); [|destruct (validity (host s1))];
      set_solver.
Qed.

(** X2.  As long as [setValid] has never been called, every blur derives
    the "invalid" class anew from the native [checkValidity()]: after
    the blur the class is on the root exactly when the input is invalid
    at that moment, and the label controller has been told the same
    validity last. *)
Theorem blur_derives_invalid_from_native_validity (sts : list Step) w :
  INVALID css ≠ FOCUSED css →
  Forall (fun st => isSetValid st = false) sts →
  let s1 := steps css strs istrs sts (mkSt (new (hostAdapter strs)) w) in
  let s2 := step css strs istrs Blur s1 in
  (INVALID css ∈ classList (root (host s2)) ↔ validity (host s1) = false)
  ∧ last (calls (host s2)) = Some (Label_changeValidity (validity (host s1))).
Proof.
  intros Hne Hall s1 s2.
  assert (H1 : adapter_ (this s1) = hostAdapter strs).
  { subst s1. rewrite adapter_steps. reflexivity. }
  assert (Hc : useCustomValidityChecking_ (this s1) = false).
  { subst s1. rewrite steps_keep_useCustomValidityChecking_ by (reflexivity || exact Hall).
    reflexivity. }
  subst s2. rewrite step_on_host by exact H1. split.
  - rewrite classList_root_step_on. cbv zeta. rewrite Hc.
    destruct (validity (host s1)); split; try discriminate; try reflexivity; set_solver.
  - cbn [step_on host]. rewrite Hc, calls_deactivateFocus_on.
    rewrite last_app. reflexivity.
Qed.

End FocusAndValidity.

(** ** The help text through focus and blur *)

Section HelptextLife.
Variable css : CssClasses.
Variable strs : Strings.
Variable istrs : InputStrings.
Implicit Types (f : Foundation World) (w : World) (s : St World).

(** The help text after the update depends on the help text before it
    and on nothing else of the page. *)
Lemma helptext_updateHelptext_on_ext b w w' :
  helptext w = helptext w' →
  helptext (updateHelptext_on css strs b w) = helptext (updateHelptext_on css strs b w').
Proof.
  intros E. unfold updateHelptext_on. cbv zeta. rewrite E.
  destruct (classList_contains (HELPTEXT_VALIDATION_MSG css) (helptext w') && negb b);
    destruct (classList_contains (HELPTEXT_PERSISTENT css) (helptext w'));
    cbn [orb helptext on_helptext]; rewrite ?E; reflexivity.
Qed.

Lemma helptext_changeValidity_on b w :
  helptext (changeValidity_on css strs b w) = helptext (updateHelptext_on css strs b w).
Proof.
  unfold changeValidity_on. cbv zeta. apply helptext_updateHelptext_on_ext.
  destruct b; reflexivity.
Qed.

Lemma classList_helptext_updateHelptext_on b w :
  classList (helptext (updateHelptext_on css strs b w)) = classList (helptext w).
Proof.
  unfold updateHelptext_on. cbv zeta.
  destruct (classList_contains (HELPTEXT_VALIDATION_MSG css) (helptext w) && negb b);
    destruct (classList_contains (HELPTEXT_PERSISTENT css) (helptext w)); reflexivity.
Qed.

(** X3.  A focus makes the help text visible ([aria-hidden] removed).
    The blur that follows hides it again ([aria-hidden="true"]) exactly
    when validity is automatic and the help text is neither persistent
    nor a validation message of a field that is invalid; once validity
    is managed manually a blur leaves the help text as the focus left
    it. *)
Theorem helptext_hidden_after_focus_and_blur f w :
  adapter_ f = hostAdapter strs →
  ROLE strs ≠ ARIA_HIDDEN strs →
  let s1 := step css strs istrs Focus (mkSt f w) in
  let s2 := step css strs istrs Blur s1 in
  let persistent := classList_contains (HELPTEXT_PERSISTENT css) (helptext w) in
  let needsDisplay :=
    classList_contains (HELPTEXT_VALIDATION_MSG css) (helptext w) && negb (validity w) in
  attributes (helptext (host s1)) !! ARIA_HIDDEN strs = None
  ∧ attributes (helptext (host s2)) !! ARIA_HIDDEN strs =
    if useCustomValidityChecking_ f || persistent || needsDisplay then None
    else Some "true".
Proof.
  intros H Hne s1 s2 persistent needsDisplay.
  assert (Hs1 : s1 = mkSt f (activateFocus_on css strs w)).
  { subst s1. rewrite step_on_host by exact H. reflexivity. }
  assert (Hs2 : s2 = mkSt f (deactivateFocus_on css strs (useCustomValidityChecking_ f)
                               (activateFocus_on css strs w))).
  { subst s2. rewrite Hs1. rewrite step_on_host by exact H. reflexivity. }
  rewrite Hs1, Hs2. cbn [host]. split.
  - cbn. apply lookup_delete_eq.
  - unfold deactivateFocus_on. cbv zeta.
    destruct (useCustomValidityChecking_ f); cbn [orb].
    + cbn. apply lookup_delete_eq.
    + rewrite helptext_changeValidity_on, attributes_helptext_updateHelptext_on.
      cbv zeta. subst persistent needsDisplay. unfold classList_contains.
      cbn [helptext validity record on_root on_helptext on_bottomLine activateFocus_on
           classList removeAttribute attributes].
      destruct (bool_decide (HELPTEXT_VALIDATION_MSG css ∈ classList (helptext w)) &&
                negb (validity w)); [rewrite orb_true_r|rewrite orb_false_r].
      * rewrite lookup_insert_ne by exact Hne. apply lookup_delete_eq.
      * destruct (bool_decide (HELPTEXT_PERSISTENT css ∈ classList (helptext w))).
        -- rewrite lookup_delete_ne by exact Hne. apply lookup_delete_eq.
        -- apply lookup_insert_eq.
Qed.

End HelptextLife.

(** ** How calls of [setValid] and of [init] compose *)

Section Composition.
Variable css : CssClasses.
Variable strs : Strings.
Variable istrs : InputStrings.
Implicit Types (f : Foundation World) (w : World) (s : St World) (el : Element).

Lemma Element_eq el1 el2 :
  classList el1 = classList el2 → attributes el1 = attributes el2 →
  listeners el1 = listeners el2 → clientRectLeft el1 = clientRectLeft el2 → el1 = el2.
Proof. destruct el1, el2; simpl; congruence. Qed.

Lemma root_changeValidity_on b w :
  root (changeValidity_on css strs b w) =
  if b then classList_remove (INVALID css) (root w) else classList_add (INVALID css) (root w).
Proof.
  unfold changeValidity_on. cbv zeta. rewrite root_updateHelptext_on.
  destruct b; reflexivity.
Qed.

Lemma listeners_helptext_updateHelptext_on b w :
  listeners (helptext (updateHelptext_on css strs b w)) = listeners (helptext w).
Proof.
  unfold updateHelptext_on. cbv zeta.
  destruct (classList_contains (HELPTEXT_VALIDATION_MSG css) (helptext w) && negb b);
    destruct (classList_contains (HELPTEXT_PERSISTENT css) (helptext w)); reflexivity.
Qed.

Lemma clientRectLeft_helptext_updateHelptext_on b w :
  clientRectLeft (helptext (updateHelptext_on css strs b w)) = clientRectLeft (helptext w).
Proof.
  unfold updateHelptext_on. cbv zeta.
  destruct (classList_contains (HELPTEXT_VALIDATION_MSG css) (helptext w) && negb b);
    destruct (classList_contains (HELPTEXT_PERSISTENT css) (helptext w)); reflexivity.
Qed.

(** X4.  Calls of [setValid] compose on the page as follows: a repeated
    [setValid(b)] leaves the root and the help text as the first call
    left them, and [setValid(true)] after [setValid(false)] leaves them
    as [setValid(true)] alone would. *)
Theorem setValid_composes s :
  adapter_ (this s) = hostAdapter strs →
  let page_of (s' : St World) := (root (host s'), helptext (host s')) in
  (∀ b, page_of (steps css strs istrs [SetValid b; SetValid b] s)
        = page_of (step css strs istrs (SetValid b) s))
  ∧ page_of (steps css strs istrs [SetValid false; SetValid true] s)
    = page_of (step css strs istrs (SetValid true) s).
Proof.
  intros H page_of.
  assert (Hstep : ∀ b s', adapter_ (this s') = hostAdapter strs →
            page_of (step css strs istrs (SetValid b) s')
            = (root (changeValidity_on css strs b (host s')),
               helptext (changeValidity_on css strs b (host s')))).
  { intros b s' H'. rewrite step_on_host by exact H'. reflexivity. }
  assert (H1 : ∀ b, adapter_ (this (step css strs istrs (SetValid b) s)) = hostAdapter strs).
  { intros b. rewrite <- H. apply (frame_step css strs istrs (SetValid b) s). }
  assert (Hh : ∀ b, host (step css strs istrs (SetValid b) s)
                    = changeValidity_on css strs b (host s)).
  { intros b. rewrite step_on_host by exact H. reflexivity. }
  assert (Hpair : ∀ b1 b2,
            (b1 = b2 ∨ b2 = true) →
            page_of (steps css strs istrs [SetValid b1; SetValid b2] s)
            = page_of (step css strs istrs (SetValid b2) s)).
  { intros b1 b2 Hb. rewrite steps_cons. cbn [steps foldl].
    rewrite (Hstep b2 _ (H1 b1)), (Hstep b2 s H), Hh. f_equal.
    - rewrite !root_changeValidity_on. apply Element_eq.
      + destruct b1, b2; cbn [classList classList_remove classList_add]; set_solver.
      + destruct b1, b2; reflexivity.
      + destruct b1, b2; reflexivity.
      + destruct b1, b2; reflexivity.
    - apply Element_eq.
      + rewrite !helptext_changeValidity_on, !classList_helptext_updateHelptext_on.
        rewrite helptext_changeValidity_on. apply classList_helptext_updateHelptext_on.
      + rewrite !helptext_changeValidity_on, !attributes_helptext_updateHelptext_on.
        cbv zeta. unfold classList_contains.
        rewrite !helptext_changeValidity_on, !classList_helptext_updateHelptext_on.
        rewrite attributes_helptext_updateHelptext_on. cbv zeta. unfold classList_contains.
        destruct (bool_decide (HELPTEXT_VALIDATION_MSG css ∈ classList (helptext (host s))));
          destruct (bool_decide (HELPTEXT_PERSISTENT css ∈ classList (helptext (host s))));
          destruct Hb as [-> | ->]; try destruct b2; try destruct b1; cbn [andb negb];
          apply map_eq; intros k;
          rewrite ?lookup_insert, ?lookup_delete, ?lookup_insert, ?lookup_delete;
          repeat case_decide; congruence.
      + rewrite !helptext_changeValidity_on, !listeners_helptext_updateHelptext_on.
        rewrite helptext_changeValidity_on. apply listeners_helptext_updateHelptext_on.
      + rewrite !helptext_changeValidity_on, !clientRectLeft_helptext_updateHelptext_on.
        rewrite helptext_changeValidity_on. apply clientRectLeft_helptext_updateHelptext_on. }
  split.
  - intros b. apply Hpair. left; reflexivity.
  - apply Hpair. right; reflexivity.
Qed.

End Composition.

(** ** [init()] called twice *)

Section DoubleInit.
Variable css : CssClasses.
Variable strs : Strings.
Variable istrs : InputStrings.
Implicit Types (f : Foundation World) (w : World) (s : St World) (el : Element).

Lemma addEventListener_again t h el :
  (t, h) ∈ listeners el → addEventListener t h el = el.
Proof.
  intros Hin. unfold addEventListener. rewrite bool_decide_eq_true_2 by exact Hin.
  destruct el; reflexivity.
Qed.

Lemma classList_addEventListener t h el :
  classList (addEventListener t h el) = classList el.
Proof. reflexivity. Qed.

Lemma classList_add_again c el :
  c ∈ classList el → classList_add c el = el.
Proof.
  intros Hin. unfold classList_add. destruct el as [cl attrs ls r]; cbn in *.
  f_equal. set_solver.
Qed.

Lemma root_init_on f w :
  root (init_on css istrs f w) =
  addEventListener "keydown" (textFieldInteractionHandler_ f)
    (addEventListener "click" (textFieldInteractionHandler_ f)
       (classList_add (UPGRADED css) (root w))).
Proof. unfold init_on. destruct (truthy (VStr (value w))); reflexivity. Qed.

Lemma input_init_on f w :
  input (init_on css istrs f w) =
  addEventListener (PRESSED_EVENT istrs) (setPointerXOffset_ f)
    (addEventListener (BLUR_EVENT istrs) (inputBlurHandler_ f)
       (addEventListener (FOCUS_EVENT istrs) (inputFocusHandler_ f) (input w))).
Proof. unfold init_on. destruct (truthy (VStr (value w))); reflexivity. Qed.

Lemma bottomLine_init_on f w :
  bottomLine (init_on css istrs f w) =
  addEventListener "transitionend" (transitionEndHandler_ f) (bottomLine w).
Proof. unfold init_on. destruct (truthy (VStr (value w))); reflexivity. Qed.

(** X5.  A second [init()] attaches nothing twice: the handlers it
    registers are the values the first call registered, which the
    elements already hold, so the root, the input and the bottom line
    are after two calls what they were after one. *)
Theorem init_twice_attaches_once s :
  adapter_ (this s) = hostAdapter strs →
  let s1 := step css strs istrs Init s in
  let s2 := step css strs istrs Init s1 in
  root (host s2) = root (host s1)
  ∧ input (host s2) = input (host s1)
  ∧ bottomLine (host s2) = bottomLine (host s1).
Proof.
  intros H s1 s2.
  assert (Hs1 : s1 = mkSt (this s) (init_on css istrs (this s) (host s))).
  { subst s1. rewrite step_on_host by exact H. reflexivity. }
  assert (Hs2 : s2 = mkSt (this s) (init_on css istrs (this s)
                                     (init_on css istrs (this s) (host s)))).
  { subst s2. rewrite Hs1. rewrite step_on_host by exact H. reflexivity. }
  rewrite Hs1, Hs2. cbn [host].
  rewrite (root_init_on _ (init_on _ _ _ _)), (input_init_on _ (init_on _ _ _ _)),
          (bottomLine_init_on _ (init_on _ _ _ _)).
  repeat apply conj.
  - rewrite root_init_on.
    rewrite (classList_add_again (UPGRADED css)) by (cbn; set_solver).
    rewrite (addEventListener_again "click")
      by (apply addEventListener_mono, addEventListener_elem).
    apply addEventListener_again, addEventListener_elem.
  - rewrite input_init_on.
    rewrite (addEventListener_again (FOCUS_EVENT istrs))
      by (do 2 apply addEventListener_mono; apply addEventListener_elem).
    rewrite (addEventListener_again (BLUR_EVENT istrs))
      by (apply addEventListener_mono, addEventListener_elem).
    apply addEventListener_again, addEventListener_elem.
  - rewrite bottomLine_init_on. apply addEventListener_again, addEventListener_elem.
Qed.

End DoubleInit.

(** ** The user-input latch and the pointer offset *)

(** [Number::toString] at whole and fractional pixels, at the two ends
    of the plain notation, and at the values that are not numbers. *)
Example Number_toString_examples :
  Number.toString 15 = "15"
  ∧ Number.toString (40 - 24.5) = "15.5"
  ∧ Number.toString (-0.25) = "-0.25"
  ∧ Number.toString (0x1.999999999999ap-4 + 0x1.999999999999ap-3) = "0.30000000000000004"
  ∧ Number.toString 100000000000000000000 = "100000000000000000000"
  ∧ Number.toString 1e21 = "1e+21"
  ∧ Number.toString 0x1.0c6f7a0b5ed8dp-20 = "0.000001"
  ∧ Number.toString 0x1.ad7f29abcaf48p-24 = "1e-7"
  ∧ Number.toString 0x1p-1074 = "5e-324"
  ∧ Number.toString (0 - 0) = "0"
  ∧ Number.toString (-0) = "0"
  ∧ Number.toString (1 / 0) = "Infinity"
  ∧ Number.toString (0 / 0) = "NaN".
Proof. vm_compute. repeat apply conj; reflexivity. Qed.

(** [setBottomLineTransformOrigin_] between two pixels and far to the
    right, where the offset is written with an exponent. *)
Example setBottomLineTransformOrigin_examples :
  let s := mkSt (new (hostAdapter mdc_strings)) page in
  let styled value := mkSt (new (hostAdapter mdc_strings))
                        (on_bottomLine (setAttribute "style" value) page) in
  setBottomLineTransformOrigin_ (pressAt 40 24.5) s
  = Normal tt (styled "transform-origin: 15.5px center")
  ∧ setBottomLineTransformOrigin_ (pressAt 1e21 0) s
    = Normal tt (styled "transform-origin: 1e+21px center").
Proof. split; reflexivity. Qed.

Section LatchAndOffset.
Variable css : CssClasses.
Variable strs : Strings.
Variable istrs : InputStrings.
Implicit Types (f : Foundation World) (w : World) (s : St World).

Lemma step_keeps_receivedUserInput_ st s :
  adapter_ (this s) = hostAdapter strs →
  receivedUserInput_ (this s) = VBool true →
  receivedUserInput_ (this (step css strs istrs st s)) = VBool true.
Proof.
  intros H Hr. rewrite step_on_host by exact H.
  destruct st; try exact Hr.
  cbn [step_on]. unfold handleTextFieldInteraction_on.
  destruct (truthy _); [exact Hr | reflexivity].
Qed.

Lemma steps_keep_receivedUserInput_ sts s :
  adapter_ (this s) = hostAdapter strs →
  receivedUserInput_ (this s) = VBool true →
  receivedUserInput_ (this (steps css strs istrs sts s)) = VBool true.
Proof.
  revert s. induction sts as [|st sts IH]; intros s H Hr; [exact Hr|].
  rewrite steps_cons. apply IH.
  - rewrite <- H. apply (frame_step css strs istrs st s).
  - apply step_keeps_receivedUserInput_; assumption.
Qed.

(** X6.  An interaction handled while the input is enabled sets
    [receivedUserInput_] to true, whatever the event, and nothing that
    happens to the instance afterwards resets it; an interaction while
    the input is disabled leaves it as it was. *)
Theorem receivedUserInput_is_latched s evt (sts : list Step) :
  adapter_ (this s) = hostAdapter strs →
  let s1 := step css strs istrs (Interaction evt) s in
  (truthy (disabledProperty (host s)) = false →
     receivedUserInput_ (this s1) = VBool true
     ∧ receivedUserInput_ (this (steps css strs istrs sts s1)) = VBool true)
  ∧ (truthy (disabledProperty (host s)) = true →
     receivedUserInput_ (this s1) = receivedUserInput_ (this s)).
Proof.
  intros H s1.
  assert (Hs1 : s1 = handleTextFieldInteraction_on css strs evt s).
  { subst s1. rewrite step_on_host by exact H. reflexivity. }
  assert (H1 : adapter_ (this s1) = hostAdapter strs).
  { subst s1. rewrite <- H. apply (frame_step css strs istrs (Interaction evt) s). }
  split; intros Hd.
  - assert (Hr : receivedUserInput_ (this s1) = VBool true).
    { rewrite Hs1. unfold handleTextFieldInteraction_on. rewrite Hd. reflexivity. }
    split; [exact Hr|]. apply steps_keep_receivedUserInput_; assumption.
  - rewrite Hs1. unfold handleTextFieldInteraction_on. rewrite Hd. reflexivity.
Qed.

(** X7.  After two presses the bottom line's [style] is the
    transform origin of the second press alone: the horizontal offset
    is the text of the double [clientX - left], the pointer's position
    minus the left edge of the pressed target, whole or not, and every
    other attribute of the bottom line is as before. *)
Theorem last_press_sets_transform_origin s evt1 evt2 :
  adapter_ (this s) = hostAdapter strs →
  attributes (bottomLine (host (steps css strs istrs [Pressed evt1; Pressed evt2] s))) =
  <["style" := "transform-origin: "
               +:+ Number.toString (evt_clientX evt2 - clientRectLeft (evt_target evt2))%float
               +:+ "px center"]> (attributes (bottomLine (host s))).
Proof.
  intros H. rewrite steps_cons. cbn [steps foldl].
  assert (H1 : adapter_ (this (step css strs istrs (Pressed evt1) s)) = hostAdapter strs).
  { rewrite <- H. apply (frame_step css strs istrs (Pressed evt1) s). }
  rewrite step_on_host by exact H1. rewrite (step_on_host css strs istrs (Pressed evt1) s H).
  cbn. apply insert_insert_eq.
Qed.

End LatchAndOffset.

(** ** What the adapter must supply *)

(** Opens an instance over a merged adapter and computes a method on
    it, splitting on every capability that may be absent, on every
    result of a getter and on every test. *)
Ltac run_binds :=
  simpl; try unfold mbind, mret, JS_bind, JS_ret, bind, ret; simpl.

Ltac run_cases :=
  unfold call0, call1, call2, ask0, ask1, ask2, method, member, effect, query, field, assign;
  unfold instance_over; run_binds;
  repeat
    (match goal with
     | Hi : ∀ w, is_Some (?g w) |- context [match ?g ?w0 with Some _ => _ | None => _ end] =>
         let E := fresh "E" in destruct (Hi w0) as [? E]; rewrite E
     | |- context [match ?o with Some _ => _ | None => _ end] =>
         is_var o; destruct o
     | |- context [match ?o ∪ _ with Some _ => _ | None => _ end] =>
         is_var o; destruct o
     | |- context [if ?b then _ else _] =>
         lazymatch b with
         | context [match _ with _ => _ end] => fail
         | context [if _ then _ else _] => fail
         | _ => destruct b
         end
     end;
     run_binds).

(** Opens an adapter into its capabilities. *)
Ltac open_adapter a :=
  destruct a as [cap_ac cap_rc cap_sia cap_ethc cap_rtf cap_dtf cap_nia cap_acb cap_rcb
                 cap_ach cap_rch cap_hhc cap_rte cap_dte cap_sba cap_sha cap_rha
                 cap_gif cap_glf cap_rii cap_dii].

Section Capabilities.
Context {W : Type}.
Variable css : CssClasses.
Variable strs : Strings.
Variable istrs : InputStrings.
Implicit Types (a : Adapter W) (w : W).

(** X8.  Whatever the supplied adapter omits, the methods that only
    touch the bottom line and the help text return normally: the
    default adapter stands in for every capability they call. *)
Theorem bottom_line_and_helptext_methods_never_throw a custom received isFocused w evt b :
  let s := mkSt (instance_over (Object_assign defaultAdapter a) custom received isFocused) w in
  completed (transitionEnd_ css evt s) = true
  ∧ completed (setBottomLineTransformOrigin_ evt s) = true
  ∧ completed (updateHelptext_ css strs b s) = true
  ∧ completed (showHelptext_ strs s) = true
  ∧ completed (hideHelptext_ strs s) = true.
Proof.
  intros s. subst s. open_adapter a.
  unfold transitionEnd_, setBottomLineTransformOrigin_, updateHelptext_, showHelptext_,
    hideHelptext_.
  repeat apply conj; run_cases; reflexivity.
Qed.

(** X9.  [destroy()] returns normally exactly when the supplied adapter
    has a [deregisterInputInteractionHandler]; it needs no earlier
    [init()] and nothing else of the adapter. *)
Theorem destroy_completes_iff_deregister_supplied a custom received isFocused w :
  completed (destroy css istrs
               (mkSt (instance_over (Object_assign defaultAdapter a) custom received isFocused) w))
  = true
  ↔ is_Some (deregisterInputInteractionHandler a).
Proof.
  open_adapter a. unfold destroy. cbn [deregisterInputInteractionHandler].
  run_cases; split; intros Hx; try reflexivity; try discriminate Hx; try (eexists; reflexivity);
    try (destruct Hx as [? Hx]; discriminate Hx).
Qed.

(** X10.  Four capabilities are all that the foundation needs of an
    adapter: when it supplies the two input-handler capabilities and
    its two getters always hand out a controller, every method of the
    foundation returns normally, whatever else the adapter leaves
    out. *)
Theorem four_capabilities_suffice a custom received isFocused w evt b
    (getInput : W → option (Input.Foundation W))
    (getLabel : W → option (Label.Foundation W)) :
  getInputFoundation a = Some getInput → (∀ w', is_Some (getInput w')) →
  getLabelFoundation a = Some getLabel → (∀ w', is_Some (getLabel w')) →
  is_Some (registerInputInteractionHandler a) →
  is_Some (deregisterInputInteractionHandler a) →
  let s := mkSt (instance_over (Object_assign defaultAdapter a) custom received isFocused) w in
  completed (init css istrs s) = true
  ∧ completed (destroy css istrs s) = true
  ∧ completed (handleTextFieldInteraction_ css evt s) = true
  ∧ completed (activateFocus_ css strs s) = true
  ∧ completed (deactivateFocus_ css strs s) = true
  ∧ completed (setDisabled css b s) = true
  ∧ completed (setValid css strs b s) = true.
Proof.
  intros Hgi Hi Hgl Hl [reg Hreg] [dereg Hdereg] s. subst s.
  open_adapter a. cbn in Hgi, Hgl, Hreg, Hdereg. subst.
  unfold init, destroy, handleTextFieldInteraction_, activateFocus_, deactivateFocus_,
    setDisabled, setValid, changeValidity_, updateHelptext_, showHelptext_, hideHelptext_.
  repeat apply conj; run_cases; reflexivity.
Qed.

End Capabilities.

(** ** The default adapter alone *)

Section DefaultAdapterAlone.
Variable css : CssClasses.
Variable strs : Strings.
Variable istrs : InputStrings.

Lemma step_default_adapter st (s : St World) :
  adapter_ (this s) = defaultAdapter →
  isNativeInput st = false →
  host (step css strs istrs st s) = host s.
Proof.
  intros H Hst. destruct s as [f w]. cbn [this] in H.
  destruct f as [a c h1 h2 h3 h4 h5 r i]. cbn in H. subst a.
  destruct st; try discriminate Hst; unfold step, run;
    unfold init, destroy, handleTextFieldInteraction_, activateFocus_, deactivateFocus_,
      setBottomLineTransformOrigin_, transitionEnd_, setDisabled, setValid, changeValidity_,
      updateHelptext_, showHelptext_, hideHelptext_;
    run_cases; reflexivity.
Qed.

(** X11.  A foundation constructed with no adapter changes nothing:
    whatever methods and handlers are called on it, the elements of
    the page and the record of calls are what they were (every
    capability of the default adapter is an empty function). *)
Theorem default_adapter_changes_nothing (sts : list Step) (w : World) :
  let w' := host (steps css strs istrs sts (mkSt (new emptyAdapter) w)) in
  root w' = root w ∧ input w' = input w ∧ icon w' = icon w
  ∧ bottomLine w' = bottomLine w ∧ helptext w' = helptext w ∧ calls w' = calls w.
Proof.
  intros w'. subst w'.
  assert (Hgen : ∀ s : St World, adapter_ (this s) = defaultAdapter →
            let w' := host (steps css strs istrs sts s) in
            root w' = root (host s) ∧ input w' = input (host s) ∧ icon w' = icon (host s)
            ∧ bottomLine w' = bottomLine (host s) ∧ helptext w' = helptext (host s)
            ∧ calls w' = calls (host s)).
  { induction sts as [|st sts' IH]; intros s H; [cbn; tauto|].
    cbv zeta. rewrite steps_cons.
    assert (H1 : adapter_ (this (step css strs istrs st s)) = defaultAdapter).
    { rewrite <- H. apply (frame_step css strs istrs st s). }
    specialize (IH _ H1). cbv zeta in IH.
    destruct (isNativeInput st) eqn:Hn.
    - destruct st; try discriminate Hn. exact IH.
    - rewrite (step_default_adapter st s H Hn) in IH. exact IH. }
  apply (Hgen (mkSt (new emptyAdapter) w)). reflexivity.
Qed.

End DefaultAdapterAlone.

(** ** The component's adapter at work *)

Section Component.
Variable css : CssClasses.
Variable strs : Strings.
Variable istrs : InputStrings.
Implicit Types (f : Foundation World) (w : World) (s : St World).

(** Every step of the life of the component's foundation is its
    direct-style counterpart. *)
Lemma step_on_component_eq st s :
  adapter_ (this s) = adapter_ (MDCTextfield.getDefaultFoundation strs) →
  step css strs istrs st s = step_on_component css strs istrs st s.
Proof.
  intros H. destruct s as [f w]. cbn [this] in H.
  destruct st; unfold step, step_on_component, run; cbn [this host].
  - rewrite (init_on_component_eq css strs istrs f w H). reflexivity.
  - rewrite (destroy_on_component_eq css strs istrs f w H). reflexivity.
  - unfold activateFocus_, showHelptext_. on_host f H. reflexivity.
  - unfold deactivateFocus_, changeValidity_, updateHelptext_, hideHelptext_,
      deactivateFocus_on_component, changeValidity_on_component, hasValidInput.
    on_host f H.
    match goal with |- context [negb ?c] => is_var c; destruct c end; simpl; [reflexivity|].
    destruct (validity w); reflexivity.
  - unfold setBottomLineTransformOrigin_. on_host f H. reflexivity.
  - unfold handleTextFieldInteraction_, handleTextFieldInteraction_on, triggersNotification.
    on_host f H.
    destruct (truthy (disabledProperty w)); [reflexivity|]. simpl.
    destruct (classList_contains _ _ && _); reflexivity.
  - unfold transitionEnd_. on_host f H. destruct (strict_eq _ _ && _); reflexivity.
  - unfold setDisabled, setDisabled_on, setIconAttr_on. on_host f H.
    destruct disabled; reflexivity.
  - unfold setValid, changeValidity_, updateHelptext_, hideHelptext_,
      changeValidity_on_component.
    on_host f H. destruct isValid; reflexivity.
  - reflexivity.
Qed.

Lemma step_on_component_keeps_bottomLine_helptext st s :
  bottomLine (host (step_on_component css strs istrs st s)) = bottomLine (host s)
  ∧ helptext (host (step_on_component css strs istrs st s)) = helptext (host s).
Proof.
  destruct st; unfold step_on_component; cbv zeta; cbn [host].
  - unfold init_on_component. destruct (truthy _); split; reflexivity.
  - split; reflexivity.
  - split; reflexivity.
  - unfold deactivateFocus_on_component, changeValidity_on_component. cbv zeta.
    destruct (useCustomValidityChecking_ (this s)); [split; reflexivity|].
    cbn [validity record on_root]. destruct (validity (host s)); split; reflexivity.
  - split; reflexivity.
  - unfold handleTextFieldInteraction_on. destruct (truthy _); [split; reflexivity|].
    cbn [host]. destruct (triggersNotification css evt); split; reflexivity.
  - split; reflexivity.
  - unfold setDisabled_on, setIconAttr_on. cbv zeta.
    destruct disabled; cbn [icon record set_nativeDisabled on_root];
      destruct (icon (host s)); split; reflexivity.
  - unfold changeValidity_on_component. cbv zeta. destruct isValid; split; reflexivity.
  - split; reflexivity.
Qed.

(** X12.  On the component the bottom line and the help text are never
    touched: its adapter supplies none of their capabilities, so
    through the whole life of its foundation (focus, blur, validity
    changes, transition ends and all) both elements stay exactly as
    they were, and no transition-end listener is ever attached. *)
Theorem component_never_touches_bottom_line_or_helptext (sts : list Step) w :
  let s := steps css strs istrs sts (mkSt (MDCTextfield.getDefaultFoundation strs) w) in
  bottomLine (host s) = bottomLine w ∧ helptext (host s) = helptext w.
Proof.
  intros s. subst s.
  assert (Hgen : ∀ s0 : St World,
            adapter_ (this s0) = adapter_ (MDCTextfield.getDefaultFoundation strs) →
            bottomLine (host (steps css strs istrs sts s0)) = bottomLine (host s0)
            ∧ helptext (host (steps css strs istrs sts s0)) = helptext (host s0)).
  { induction sts as [|st sts' IH]; intros s0 H; [split; reflexivity|].
    rewrite steps_cons.
    assert (H1 : adapter_ (this (step css strs istrs st s0))
                 = adapter_ (MDCTextfield.getDefaultFoundation strs)).
    { rewrite <- H. apply (frame_step css strs istrs st s0). }
    destruct (IH _ H1) as [Hb Hh]. rewrite Hb, Hh.
    rewrite step_on_component_eq by exact H.
    apply step_on_component_keeps_bottomLine_helptext. }
  apply (Hgen (mkSt (MDCTextfield.getDefaultFoundation strs) w)). reflexivity.
Qed.

Lemma root_destroy_on_component f w :
  root (destroy_on_component css istrs f w) =
  removeEventListener "keydown" (textFieldInteractionHandler_ f)
    (removeEventListener "click" (textFieldInteractionHandler_ f)
       (classList_remove (UPGRADED css) (root w))).
Proof. reflexivity. Qed.

(** X13.  On the component, what [init()] put on the root element is
    gone after [destroy()], for any page: the "upgraded" class, and the
    click and keydown listeners, which are detached with
    [removeEventListener] and the handler value that was attached. *)
Theorem component_destroy_cleans_the_root w :
  let h := textFieldInteractionHandler_ (MDCTextfield.getDefaultFoundation strs) in
  let s := steps css strs istrs [Init; Destroy]
             (mkSt (MDCTextfield.getDefaultFoundation strs) w) in
  (UPGRADED css ∉ classList (root (host s)))
  ∧ (("click", h) ∉ listeners (root (host s)))
  ∧ (("keydown", h) ∉ listeners (root (host s))).
Proof.
  intros h s. subst s.
  set (f := MDCTextfield.getDefaultFoundation strs).
  rewrite !steps_cons.
  rewrite (step_on_component_eq Init) by reflexivity.
  rewrite (step_on_component_eq Destroy) by reflexivity.
  cbn [steps foldl step_on_component this host]. rewrite root_destroy_on_component.
  split; [cbn; set_solver|].
  split; repeat first [ apply removeEventListener_not_elem | apply removeEventListener_anti ].
Qed.

(** X14.  On the component, the setter [disabled = b] sets the icon's [tabindex]
    ("-1" when disabling, "0" when enabling) when there is an icon and
    does nothing to it when there is none; in both cases it returns
    normally and puts the "disabled" class on the root exactly when
    disabling. *)
Theorem component_setDisabled_with_or_without_icon (b : bool) w :
  let r := MDCTextfield.set_disabled css b
             (mkSt (MDCTextfield.getDefaultFoundation strs) w) in
  completed r = true
  ∧ icon (host (final r)) = setAttribute "tabindex" (if b then "-1" else "0") <$> icon w
  ∧ (DISABLED css ∈ classList (root (host (final r))) ↔ b = true).
Proof.
  intros r.
  assert (Hr : r = Normal tt (mkSt (MDCTextfield.getDefaultFoundation strs)
                                (setDisabled_on css b w))).
  { subst r. unfold MDCTextfield.set_disabled, setDisabled, setDisabled_on, setIconAttr_on.
    unfold MDCTextfield.getDefaultFoundation, new.
    unfold call0, call1, call2, ask0, ask1, ask2, method, member, effect, query, field, assign.
    unfold mbind, mret, JS_bind, JS_ret, bind, ret. simpl.
    destruct b; reflexivity. }
  rewrite Hr. cbn [completed final host].
  rewrite icon_setDisabled_on, classList_root_setDisabled_on.
  split; [reflexivity|]. split; [reflexivity|].
  destruct b; split; try discriminate; try reflexivity; set_solver.
Qed.

(** X15.  On the component, an interaction while the input is enabled
    emits the icon event once when the event target
    [classList.contains] the icon class and the event is a click, or
    its key is "Enter", or its key code is 13, and emits nothing
    otherwise. *)
Theorem component_emits_icon_event_iff w evt :
  truthy (disabledProperty w) = false →
  let fires :=
    TEXT_FIELD_ICON css ∈ classList (evt_target evt)
    ∧ (evt_type evt = "click" ∨ evt_key evt = VStr "Enter" ∨ evt_keyCode evt = VNum 13) in
  let after :=
    calls (host (step css strs istrs (Interaction evt)
                   (mkSt (MDCTextfield.getDefaultFoundation strs) w))) in
  (fires → after = calls w ++ [Emit (ICON_EVENT strs)])
  ∧ (¬ fires → after = calls w).
Proof.
  intros Hen fires after.
  assert (Hafter : after = if triggersNotification css evt
                           then calls w ++ [Emit (ICON_EVENT strs)] else calls w).
  { subst after. rewrite step_on_component_eq by reflexivity.
    cbn [step_on_component]. unfold handleTextFieldInteraction_on. cbn [host this].
    rewrite Hen. cbn [host]. destruct (triggersNotification css evt); reflexivity. }
  pose proof (triggersNotification_true css evt) as Ht. fold fires in Ht.
  rewrite Hafter. destruct (triggersNotification css evt).
  - split; [reflexivity|]. intros Hn. exfalso. apply Hn, Ht. reflexivity.
  - split; [|reflexivity]. intros Hf. apply Ht in Hf. discriminate Hf.
Qed.

End Component.

(** ** C2: interaction with a disabled field *)

Lemma disabledProperty_setDisabled_on css b w :
  disabledProperty (setDisabled_on css b w) = disabledProperty w.
Proof.
  unfold setDisabled_on, setIconAttr_on. cbv zeta.
  destruct b; cbn [icon record set_nativeDisabled on_root];
    destruct (icon w); reflexivity.
Qed.

Lemma nativeDisabled_setDisabled_on css b w :
  nativeDisabled (setDisabled_on css b w) = b.
Proof.
  unfold setDisabled_on, setIconAttr_on. cbv zeta.
  destruct b; cbn [icon record set_nativeDisabled on_root];
    destruct (icon w); reflexivity.
Qed.

Lemma triggersNotification_click_icon css :
  triggersNotification css (click (iconTarget css)) = true.
Proof.
  apply triggersNotification_true. split; [|left; reflexivity].
  unfold click, iconTarget, classList_add. cbn. set_solver.
Qed.

(** C2.  A field disabled with [setDisabled(true)] still handles
    interaction.  The input controller is the spec's: it is disabled
    with [setDisabled], reports it with [isDisabled()], and has no
    property [disabled].  On the component and on a complete host
    alike, after [setDisabled(true)] the controller reports itself
    disabled and the root carries the "disabled" class, yet every
    interaction event sets [receivedUserInput_], and a click on the
    icon calls [notifyIconAction]: [handleTextFieldInteraction_] tests
    the property [disabled], which is [undefined], where the getter
    [disabled] of [MDCTextfield] asks [isDisabled()]. *)
Theorem C2_disabled_field_still_handles_interaction
    (css : CssClasses) (strs : Strings) (istrs : InputStrings) (w : World) (evt : Event)
    (onComponent : bool) :
  let f := if onComponent then MDCTextfield.getDefaultFoundation strs
           else new (hostAdapter strs) in
  let s1 := step css strs istrs (SetDisabled true) (mkSt f (withoutDisabledProperty w)) in
  let s2 := step css strs istrs (Interaction evt) s1 in
  let s3 := step css strs istrs (Interaction (click (iconTarget css))) s1 in
  MDCTextfield.get_disabled (host s1) = true
  ∧ DISABLED css ∈ classList (root (host s1))
  ∧ Input.disabled inputFoundation (host s1) = VUndefined
  ∧ receivedUserInput_ (this s1) = VUndefined
  ∧ receivedUserInput_ (this s2) = VBool true
  ∧ calls (host s3) = calls (host s1) ++ [Emit (ICON_EVENT strs)].
Proof.
  intros f s1 s2 s3.
  set (w0 := withoutDisabledProperty w) in *.
  assert (Hs1 : s1 = mkSt f (setDisabled_on css true w0)).
  { subst s1 f. destruct onComponent.
    - rewrite step_on_component_eq by reflexivity. reflexivity.
    - rewrite step_on_host by reflexivity. reflexivity. }
  assert (Hstep : ∀ e, step css strs istrs (Interaction e) s1
                       = handleTextFieldInteraction_on css strs e s1).
  { intros e. rewrite Hs1. subst f. destruct onComponent.
    - rewrite step_on_component_eq by reflexivity. reflexivity.
    - rewrite step_on_host by reflexivity. reflexivity. }
  assert (Hd : disabledProperty (host s1) = VUndefined).
  { rewrite Hs1. cbn [host]. rewrite disabledProperty_setDisabled_on. reflexivity. }
  assert (Hr : receivedUserInput_ (this s1) = VUndefined).
  { rewrite Hs1. subst f. destruct onComponent; reflexivity. }
  split.
  { rewrite Hs1. unfold MDCTextfield.get_disabled. cbn [host Input.isDisabled inputFoundation].
    apply nativeDisabled_setDisabled_on. }
  split.
  { rewrite Hs1. cbn [host]. rewrite classList_root_setDisabled_on. set_solver. }
  split; [exact Hd|]. split; [exact Hr|].
  split.
  - subst s2. rewrite Hstep. unfold handleTextFieldInteraction_on. rewrite Hd. reflexivity.
  - subst s3. rewrite Hstep. unfold handleTextFieldInteraction_on. rewrite Hd.
    rewrite triggersNotification_click_icon. reflexivity.
Qed.

(** ** Manual validity on the component *)

Section ComponentValidity.
Variable css : CssClasses.
Variable strs : Strings.
Variable istrs : InputStrings.
Implicit Types (f : Foundation World) (w : World) (s : St World).

Lemma classList_root_step_on_component st s :
  classList (root (host (step_on_component css strs istrs st s))) =
  let before := classList (root (host s)) in
  match st with
  | Init => {[UPGRADED css]} ∪ before
  | Destroy => before ∖ {[UPGRADED css]}
  | Focus => {[FOCUSED css]} ∪ before
  | Blur =>
      if useCustomValidityChecking_ (this s) then before ∖ {[FOCUSED css]}
      else if validity (host s) then (before ∖ {[FOCUSED css]}) ∖ {[INVALID css]}
           else {[INVALID css]} ∪ (before ∖ {[FOCUSED css]})
  | SetDisabled b => if b then {[DISABLED css]} ∪ before else before ∖ {[DISABLED css]}
  | SetValid b => if b then before ∖ {[INVALID css]} else {[INVALID css]} ∪ before
  | Pressed _ | Interaction _ | TransitionEnd _ | NativeInput _ _ _ _ => before
  end.
Proof.
  destruct st; unfold step_on_component; cbv zeta; cbn [host this].
  - unfold init_on_component. destruct (truthy _); reflexivity.
  - reflexivity.
  - reflexivity.
  - unfold deactivateFocus_on_component, changeValidity_on_component. cbv zeta.
    destruct (useCustomValidityChecking_ (this s)); [reflexivity|].
    cbn [validity record on_root]. destruct (validity (host s)); reflexivity.
  - reflexivity.
  - rewrite root_handleTextFieldInteraction_on. reflexivity.
  - reflexivity.
  - apply classList_root_setDisabled_on.
  - unfold changeValidity_on_component. cbv zeta. destruct isValid; reflexivity.
  - reflexivity.
Qed.

(** X16.  On the component, after [valid = false] the root has the
    "invalid" class, and has it after any later steps that do not set
    [valid = true]: blurs with a natively valid input among them. *)
Theorem component_valid_false_is_sticky (sts : list Step) w :
  INVALID css ∉ [UPGRADED css; FOCUSED css; DISABLED css] →
  SetValid true ∉ sts →
  let s1 := run (MDCTextfield.set_valid css strs false)
              (mkSt (MDCTextfield.getDefaultFoundation strs) w) in
  INVALID css ∈ classList (root (host s1))
  ∧ INVALID css ∈ classList (root (host (steps css strs istrs sts s1))).
Proof.
  intros Hd Hn s1.
  set (component_adapter := adapter_ (MDCTextfield.getDefaultFoundation strs)).
  assert (Hinv : ∀ (l : list Step) (s : St World),
            SetValid true ∉ l →
            adapter_ (this s) = component_adapter →
            useCustomValidityChecking_ (this s) = true →
            INVALID css ∈ classList (root (host s)) →
            INVALID css ∈ classList (root (host (steps css strs istrs l s)))).
  { induction l as [|st l IH]; intros s Hl Ha Hc Hi; [exact Hi|].
    rewrite steps_cons. apply IH.
    - set_solver.
    - rewrite <- Ha. apply (frame_step css strs istrs st s).
    - apply (frame_step css strs istrs st s). exact Hc.
    - rewrite step_on_component_eq by exact Ha.
      rewrite classList_root_step_on_component. cbv zeta. rewrite Hc.
      assert (Hst : st ≠ SetValid true) by set_solver.
      destruct st as [| | | | | | |[]|[]|]; try congruence; set_solver. }
  assert (Hs1 : s1 = step css strs istrs (SetValid false)
                       (mkSt (MDCTextfield.getDefaultFoundation strs) w)) by reflexivity.
  assert (Hi1 : INVALID css ∈ classList (root (host s1))).
  { rewrite Hs1, step_on_component_eq by reflexivity.
    rewrite classList_root_step_on_component. cbv zeta. set_solver. }
  split; [exact Hi1|].
  apply Hinv; [exact Hn | | | exact Hi1].
  - rewrite Hs1. apply (frame_step css strs istrs (SetValid false)).
  - apply (useCustomValidityChecking_setValid css strs false).
Qed.

End ComponentValidity.

(** ** What [init()] wires and [destroy()] unwires *)

Section Wiring.
Variable css : CssClasses.
Variable strs : Strings.
Variable istrs : InputStrings.
Implicit Types (f : Foundation World) (w : World) (s : St World) (el : Element).

Lemma listeners_addEventListener_fresh t h el :
  (t, h) ∉ listeners el →
  listeners (addEventListener t h el) = listeners el ++ [(t, h)].
Proof.
  intros Hn. unfold addEventListener. cbn [listeners].
  rewrite bool_decide_eq_false_2 by exact Hn. reflexivity.
Qed.

Lemma elem_of_listeners_addEventListener l t h el :
  l ∈ listeners (addEventListener t h el) → l = (t, h) ∨ l ∈ listeners el.
Proof.
  unfold addEventListener. cbn [listeners]. case_bool_decide; set_solver.
Qed.

Lemma elem_of_listeners_removeEventListener l t h el :
  l ∈ listeners (removeEventListener t h el) → l ≠ (t, h) ∧ l ∈ listeners el.
Proof.
  unfold removeEventListener. cbn [listeners]. rewrite list_elem_of_filter. tauto.
Qed.

(** The listeners that [init()] leaves on a page that had none, for an
    instance fresh from the constructor. *)
Lemma listeners_after_init w :
  listeners (input w) = [] → listeners (root w) = [] → listeners (bottomLine w) = [] →
  let w1 := init_on css istrs (new (hostAdapter strs)) w in
  listeners (input w1)
    = [(FOCUS_EVENT istrs, ActivateFocusClosure); (BLUR_EVENT istrs, DeactivateFocusClosure);
       (PRESSED_EVENT istrs, SetBottomLineTransformOriginClosure)]
  ∧ listeners (root w1)
    = [("click", HandleTextFieldInteractionClosure);
       ("keydown", HandleTextFieldInteractionClosure)]
  ∧ listeners (bottomLine w1) = [("transitionend", TransitionEndClosure)].
Proof.
  intros Hi Hr Hb w1. subst w1.
  rewrite input_init_on, root_init_on, bottomLine_init_on.
  cbn [inputFocusHandler_ inputBlurHandler_ setPointerXOffset_ textFieldInteractionHandler_
       transitionEndHandler_ new].
  repeat apply conj.
  - rewrite listeners_addEventListener_fresh.
    + rewrite listeners_addEventListener_fresh.
      * rewrite listeners_addEventListener_fresh; rewrite Hi; [reflexivity | set_solver].
      * rewrite listeners_addEventListener_fresh; rewrite Hi; [|set_solver].
        intros Hin. apply list_elem_of_singleton in Hin. congruence.
    + rewrite listeners_addEventListener_fresh.
      * rewrite listeners_addEventListener_fresh; rewrite Hi; [|set_solver].
        cbn [app]. intros Hin. apply elem_of_cons in Hin as [Hin|Hin]; [congruence|].
        apply list_elem_of_singleton in Hin. congruence.
      * rewrite listeners_addEventListener_fresh; rewrite Hi; [|set_solver].
        intros Hin. apply list_elem_of_singleton in Hin. congruence.
  - rewrite listeners_addEventListener_fresh.
    + rewrite listeners_addEventListener_fresh; cbn [listeners classList_add]; rewrite Hr;
        [reflexivity | set_solver].
    + rewrite listeners_addEventListener_fresh; cbn [listeners classList_add]; rewrite Hr;
        [|set_solver].
      intros Hin. apply list_elem_of_singleton in Hin. congruence.
  - rewrite listeners_addEventListener_fresh; rewrite Hb; [reflexivity | set_solver].
Qed.

(** X17.  What [init()] wires, on a page that had no listeners and for
    an instance fresh from the constructor: afterwards an event of the
    input's focus type runs [activateFocus_], one of its blur type
    [deactivateFocus_], one of its pressed type
    [setBottomLineTransformOrigin_]; a click or a keydown on the root
    runs [handleTextFieldInteraction_]; a transition end on the bottom
    line runs [transitionEnd_]; each exactly once and nothing else.
    (The three event types of the input are taken to be distinct.) *)
Theorem init_wires_each_event_to_its_handler w evt :
  listeners (input w) = [] → listeners (root w) = [] → listeners (bottomLine w) = [] →
  NoDup [FOCUS_EVENT istrs; BLUR_EVENT istrs; PRESSED_EVENT istrs] →
  let s1 := step css strs istrs Init (mkSt (new (hostAdapter strs)) w) in
  let dispatch := dispatchEvent css strs in
  (evt_type evt = FOCUS_EVENT istrs → dispatch input evt s1 = step css strs istrs Focus s1)
  ∧ (evt_type evt = BLUR_EVENT istrs → dispatch input evt s1 = step css strs istrs Blur s1)
  ∧ (evt_type evt = PRESSED_EVENT istrs →
     dispatch input evt s1 = step css strs istrs (Pressed evt) s1)
  ∧ (evt_type evt = "click" ∨ evt_type evt = "keydown" →
     dispatch root evt s1 = step css strs istrs (Interaction evt) s1)
  ∧ (evt_type evt = "transitionend" →
     dispatch bottomLine evt s1 = step css strs istrs (TransitionEnd evt) s1).
Proof.
  intros Hi Hr Hb Hnd s1 dispatch.
  assert (Hs1 : s1 = mkSt (new (hostAdapter strs))
                       (init_on css istrs (new (hostAdapter strs)) w)).
  { subst s1. rewrite step_on_host by reflexivity. reflexivity. }
  destruct (listeners_after_init w Hi Hr Hb) as (Li & Lr & Lb).
  apply NoDup_cons in Hnd as [Hfb Hnd]. apply NoDup_cons in Hnd as [Hbp _].
  assert (FOCUS_EVENT istrs ≠ BLUR_EVENT istrs) by (clear -Hfb; set_solver).
  assert (FOCUS_EVENT istrs ≠ PRESSED_EVENT istrs) by (clear -Hfb; set_solver).
  assert (BLUR_EVENT istrs ≠ PRESSED_EVENT istrs) by (clear -Hbp; set_solver).
  subst dispatch. unfold dispatchEvent. rewrite Hs1. cbn [host].
  rewrite Li, Lr, Lb.
  repeat apply conj; intros Ht.
  - rewrite Ht. cbn [filter list_filter fst].
    rewrite !decide_True by reflexivity. rewrite !decide_False by congruence.
    cbn [foldl snd invoke step]. reflexivity.
  - rewrite Ht. cbn [filter list_filter fst].
    rewrite decide_False by congruence. rewrite decide_True by reflexivity.
    rewrite decide_False by congruence. cbn [foldl snd invoke step]. reflexivity.
  - rewrite Ht. cbn [filter list_filter fst].
    rewrite !decide_False by congruence. rewrite decide_True by reflexivity.
    cbn [foldl snd invoke step]. reflexivity.
  - destruct Ht as [Ht|Ht]; rewrite Ht; cbn [filter list_filter fst].
    + rewrite decide_True by reflexivity. rewrite decide_False by discriminate.
      cbn [foldl snd invoke step]. reflexivity.
    + rewrite decide_False by discriminate. rewrite decide_True by reflexivity.
      cbn [foldl snd invoke step]. reflexivity.
  - rewrite Ht. cbn [filter list_filter fst]. rewrite decide_True by reflexivity.
    cbn [foldl snd invoke step]. reflexivity.
Qed.

(** X18.  With an adapter whose deregistration detaches, [destroy()]
    undoes the wiring of [init()]: on a page that had no listeners, the
    input, the root and the bottom line have none after [init()] and
    [destroy()], and no event dispatched on them changes anything. *)
Theorem destroy_unwires_what_init_wired s evt :
  adapter_ (this s) = hostAdapter strs →
  listeners (input (host s)) = [] → listeners (root (host s)) = [] →
  listeners (bottomLine (host s)) = [] →
  let s2 := steps css strs istrs [Init; Destroy] s in
  let dispatch := dispatchEvent css strs in
  listeners (input (host s2)) = []
  ∧ listeners (root (host s2)) = []
  ∧ listeners (bottomLine (host s2)) = []
  ∧ dispatch input evt s2 = s2 ∧ dispatch root evt s2 = s2 ∧ dispatch bottomLine evt s2 = s2.
Proof.
  intros H Hi Hr Hb s2 dispatch.
  assert (Hs2 : s2 = mkSt (this s) (destroy_on css istrs (this s)
                                     (init_on css istrs (this s) (host s)))).
  { subst s2. rewrite !steps_cons. rewrite (step_on_host css strs istrs Init) by exact H.
    rewrite (step_on_host css strs istrs Destroy) by exact H. reflexivity. }
  assert (Li : listeners (input (host s2)) = []).
  { rewrite Hs2. cbn [host]. rewrite input_destroy_on, input_init_on.
    apply elem_of_nil_inv. intros l Hl.
    apply elem_of_listeners_removeEventListener in Hl as [N3 Hl].
    apply elem_of_listeners_removeEventListener in Hl as [N2 Hl].
    apply elem_of_listeners_removeEventListener in Hl as [N1 Hl].
    apply elem_of_listeners_addEventListener in Hl as [Hl|Hl]; [contradiction|].
    apply elem_of_listeners_addEventListener in Hl as [Hl|Hl]; [contradiction|].
    apply elem_of_listeners_addEventListener in Hl as [Hl|Hl]; [contradiction|].
    rewrite Hi in Hl. set_solver. }
  assert (Lr : listeners (root (host s2)) = []).
  { rewrite Hs2. cbn [host]. rewrite root_destroy_on, root_init_on.
    apply elem_of_nil_inv. intros l Hl.
    apply elem_of_listeners_removeEventListener in Hl as [N2 Hl].
    apply elem_of_listeners_removeEventListener in Hl as [N1 Hl].
    cbn [listeners classList_remove] in Hl.
    apply elem_of_listeners_addEventListener in Hl as [Hl|Hl]; [contradiction|].
    apply elem_of_listeners_addEventListener in Hl as [Hl|Hl]; [contradiction|].
    cbn [listeners classList_add] in Hl. rewrite Hr in Hl. set_solver. }
  assert (Lb : listeners (bottomLine (host s2)) = []).
  { rewrite Hs2. cbn [host]. rewrite bottomLine_destroy_on, bottomLine_init_on.
    apply elem_of_nil_inv. intros l Hl.
    apply elem_of_listeners_removeEventListener in Hl as [N1 Hl].
    apply elem_of_listeners_addEventListener in Hl as [Hl|Hl]; [contradiction|].
    rewrite Hb in Hl. set_solver. }
  subst dispatch. unfold dispatchEvent. rewrite Li, Lr, Lb.
  repeat apply conj; reflexivity.
Qed.

End Wiring.

(** ** The properties above at concrete inputs *)

(** Focus, blur, focus on a fresh page. *)
Lemma focused_iff_last_event_was_focus_witness :
  adapter_ (this (mkSt (new (hostAdapter mdc_strings)) page)) = hostAdapter mdc_strings
  ∧ INVALID mdc_cssClasses ≠ FOCUSED mdc_cssClasses
  ∧ (FOCUSED mdc_cssClasses ∈
       classList (root (host (steps mdc_cssClasses mdc_strings mdc_inputStrings
                                (map focusOrBlur ([true; false] ++ [true]))
                                (mkSt (new (hostAdapter mdc_strings)) page))))
     ↔ true = true).
Proof.
  assert (Hne : INVALID mdc_cssClasses ≠ FOCUSED mdc_cssClasses) by (vm_compute; discriminate).
  split; [reflexivity|]. split; [exact Hne|].
  exact (focused_iff_last_event_was_focus mdc_cssClasses mdc_strings mdc_inputStrings
           [true; false] true (mkSt (new (hostAdapter mdc_strings)) page) eq_refl Hne).
Defined.

(** An invalid value typed during a focus, then the blur. *)
Lemma blur_derives_invalid_from_native_validity_witness :
  let sts := [Init; Focus; NativeInput "x" false false (VBool false)] in
  let s1 := steps mdc_cssClasses mdc_strings mdc_inputStrings sts
              (mkSt (new (hostAdapter mdc_strings)) page) in
  let s2 := step mdc_cssClasses mdc_strings mdc_inputStrings Blur s1 in
  INVALID mdc_cssClasses ≠ FOCUSED mdc_cssClasses
  ∧ Forall (fun st => isSetValid st = false) sts
  ∧ (INVALID mdc_cssClasses ∈ classList (root (host s2)) ↔ validity (host s1) = false)
  ∧ last (calls (host s2)) = Some (Label_changeValidity (validity (host s1))).
Proof.
  cbv zeta.
  assert (Hne : INVALID mdc_cssClasses ≠ FOCUSED mdc_cssClasses) by (vm_compute; discriminate).
  assert (Hall : Forall (fun st => isSetValid st = false)
                   [Init; Focus; NativeInput "x" false false (VBool false)])
    by (repeat constructor).
  split; [exact Hne|]. split; [exact Hall|].
  exact (blur_derives_invalid_from_native_validity mdc_cssClasses mdc_strings mdc_inputStrings
           [Init; Focus; NativeInput "x" false false (VBool false)] page Hne Hall).
Defined.

(** Focus and blur on a page whose help text is a hidden validation
    message. *)
Lemma helptext_hidden_after_focus_and_blur_witness :
  let f := new (hostAdapter mdc_strings) in
  let w := hiddenValidationPage in
  let s1 := step mdc_cssClasses mdc_strings mdc_inputStrings Focus (mkSt f w) in
  let s2 := step mdc_cssClasses mdc_strings mdc_inputStrings Blur s1 in
  ROLE mdc_strings ≠ ARIA_HIDDEN mdc_strings
  ∧ attributes (helptext (host s1)) !! ARIA_HIDDEN mdc_strings = None
  ∧ attributes (helptext (host s2)) !! ARIA_HIDDEN mdc_strings =
    if useCustomValidityChecking_ f
       || classList_contains (HELPTEXT_PERSISTENT mdc_cssClasses) (helptext w)
       || classList_contains (HELPTEXT_VALIDATION_MSG mdc_cssClasses) (helptext w)
          && negb (validity w)
    then None else Some "true".
Proof.
  cbv zeta.
  assert (Hne : ROLE mdc_strings ≠ ARIA_HIDDEN mdc_strings) by (vm_compute; discriminate).
  split; [exact Hne|].
  exact (helptext_hidden_after_focus_and_blur mdc_cssClasses mdc_strings mdc_inputStrings
           (new (hostAdapter mdc_strings)) hiddenValidationPage eq_refl Hne).
Defined.

(** [setValid] twice on the page with the hidden validation message. *)
Lemma setValid_composes_witness :
  let s := mkSt (new (hostAdapter mdc_strings)) hiddenValidationPage in
  let page_of (s' : St World) := (root (host s'), helptext (host s')) in
  (∀ b, page_of (steps mdc_cssClasses mdc_strings mdc_inputStrings [SetValid b; SetValid b] s)
        = page_of (step mdc_cssClasses mdc_strings mdc_inputStrings (SetValid b) s))
  ∧ page_of (steps mdc_cssClasses mdc_strings mdc_inputStrings
               [SetValid false; SetValid true] s)
    = page_of (step mdc_cssClasses mdc_strings mdc_inputStrings (SetValid true) s).
Proof.
  exact (setValid_composes mdc_cssClasses mdc_strings mdc_inputStrings
           (mkSt (new (hostAdapter mdc_strings)) hiddenValidationPage) eq_refl).
Defined.

(** [init()] twice on a fresh page. *)
Lemma init_twice_attaches_once_witness :
  let s := mkSt (new (hostAdapter mdc_strings)) page in
  let s1 := step mdc_cssClasses mdc_strings mdc_inputStrings Init s in
  let s2 := step mdc_cssClasses mdc_strings mdc_inputStrings Init s1 in
  root (host s2) = root (host s1)
  ∧ input (host s2) = input (host s1)
  ∧ bottomLine (host s2) = bottomLine (host s1).
Proof.
  exact (init_twice_attaches_once mdc_cssClasses mdc_strings mdc_inputStrings
           (mkSt (new (hostAdapter mdc_strings)) page) eq_refl).
Defined.

(** A click on the root of an enabled field, then a life of focus, blur
    and [destroy()]. *)
Lemma receivedUserInput_is_latched_witness :
  let s := mkSt (new (hostAdapter mdc_strings)) page in
  let s1 := step mdc_cssClasses mdc_strings mdc_inputStrings (Interaction (click blank)) s in
  (truthy (disabledProperty (host s)) = false →
     receivedUserInput_ (this s1) = VBool true
     ∧ receivedUserInput_
         (this (steps mdc_cssClasses mdc_strings mdc_inputStrings [Focus; Blur; Destroy] s1))
       = VBool true)
  ∧ (truthy (disabledProperty (host s)) = true →
     receivedUserInput_ (this s1) = receivedUserInput_ (this s)).
Proof.
  exact (receivedUserInput_is_latched mdc_cssClasses mdc_strings mdc_inputStrings
           (mkSt (new (hostAdapter mdc_strings)) page) (click blank) [Focus; Blur; Destroy]
           eq_refl).
Defined.

(** A press at 40 on a target whose left edge is at 24.5, after a
    press to the left of another target. *)
Lemma last_press_sets_transform_origin_witness :
  attributes (bottomLine (host (steps mdc_cssClasses mdc_strings mdc_inputStrings
                                  [Pressed (pressAt 3 10); Pressed (pressAt 40 24.5)]
                                  (mkSt (new (hostAdapter mdc_strings)) page)))) =
  <["style" := "transform-origin: 15.5px center"]> (attributes (bottomLine page)).
Proof.
  exact (last_press_sets_transform_origin mdc_cssClasses mdc_strings mdc_inputStrings
           (mkSt (new (hostAdapter mdc_strings)) page) (pressAt 3 10) (pressAt 40 24.5)
           eq_refl).
Defined.

(** The adapter that supplies the four capabilities and nothing
    else. *)
Lemma four_capabilities_suffice_witness :
  let s := mkSt (instance_over (Object_assign defaultAdapter minimalAdapter)
                   false VUndefined VUndefined) page in
  let evt := click (iconTarget mdc_cssClasses) in
  completed (init mdc_cssClasses mdc_inputStrings s) = true
  ∧ completed (destroy mdc_cssClasses mdc_inputStrings s) = true
  ∧ completed (handleTextFieldInteraction_ mdc_cssClasses evt s) = true
  ∧ completed (activateFocus_ mdc_cssClasses mdc_strings s) = true
  ∧ completed (deactivateFocus_ mdc_cssClasses mdc_strings s) = true
  ∧ completed (setDisabled mdc_cssClasses true s) = true
  ∧ completed (setValid mdc_cssClasses mdc_strings true s) = true.
Proof.
  exact (four_capabilities_suffice mdc_cssClasses mdc_strings mdc_inputStrings minimalAdapter
           false VUndefined VUndefined page (click (iconTarget mdc_cssClasses)) true
           (fun _ => Some inputFoundation) (fun _ => Some labelFoundation)
           eq_refl (fun _ => ex_intro _ inputFoundation eq_refl)
           eq_refl (fun _ => ex_intro _ labelFoundation eq_refl)
           (ex_intro _ _ eq_refl) (ex_intro _ _ eq_refl)).
Defined.

(** Enter pressed on the icon of the component. *)
Lemma component_emits_icon_event_iff_witness :
  let evt := keydown (iconTarget mdc_cssClasses) "Enter" 13 in
  let fires :=
    TEXT_FIELD_ICON mdc_cssClasses ∈ classList (evt_target evt)
    ∧ (evt_type evt = "click" ∨ evt_key evt = VStr "Enter" ∨ evt_keyCode evt = VNum 13) in
  let after :=
    calls (host (step mdc_cssClasses mdc_strings mdc_inputStrings (Interaction evt)
                   (mkSt (MDCTextfield.getDefaultFoundation mdc_strings) page))) in
  truthy (disabledProperty page) = false
  ∧ (fires → after = calls page ++ [Emit (ICON_EVENT mdc_strings)])
  ∧ (¬ fires → after = calls page).
Proof.
  cbv zeta. split; [reflexivity|].
  exact (component_emits_icon_event_iff mdc_cssClasses mdc_strings mdc_inputStrings page
           (keydown (iconTarget mdc_cssClasses) "Enter" 13) eq_refl).
Defined.

(** [valid = false] on the component, then a valid value, focus, blur
    and [disabled = true]. *)
Lemma component_valid_false_is_sticky_witness :
  let sts := [NativeInput "abc" false true (VBool false); Focus; Blur; SetDisabled true] in
  let s1 := run (MDCTextfield.set_valid mdc_cssClasses mdc_strings false)
              (mkSt (MDCTextfield.getDefaultFoundation mdc_strings) page) in
  (INVALID mdc_cssClasses ∉ [UPGRADED mdc_cssClasses; FOCUSED mdc_cssClasses;
                              DISABLED mdc_cssClasses])
  ∧ (SetValid true ∉ sts)
  ∧ INVALID mdc_cssClasses ∈ classList (root (host s1))
  ∧ INVALID mdc_cssClasses
    ∈ classList (root (host (steps mdc_cssClasses mdc_strings mdc_inputStrings sts s1))).
Proof.
  cbv zeta.
  assert (Hd : INVALID mdc_cssClasses ∉ [UPGRADED mdc_cssClasses; FOCUSED mdc_cssClasses;
                                         DISABLED mdc_cssClasses]).
  { apply (bool_decide_unpack _). vm_compute. exact I. }
  assert (Hn : SetValid true ∉ [NativeInput "abc" false true (VBool false); Focus; Blur;
                                SetDisabled true]).
  { intros Hin. repeat (apply elem_of_cons in Hin as [Hin|Hin]; [discriminate Hin|]).
    apply elem_of_nil in Hin. exact Hin. }
  split; [exact Hd|]. split; [exact Hn|].
  exact (component_valid_false_is_sticky mdc_cssClasses mdc_strings mdc_inputStrings
           [NativeInput "abc" false true (VBool false); Focus; Blur; SetDisabled true]
           page Hd Hn).
Defined.

(** [init()] on a fresh page, then a focus event on the input. *)
Lemma init_wires_each_event_to_its_handler_witness :
  let evt := inputEvent "focus" in
  let s1 := step mdc_cssClasses mdc_strings mdc_inputStrings Init
              (mkSt (new (hostAdapter mdc_strings)) page) in
  let dispatch := dispatchEvent mdc_cssClasses mdc_strings in
  NoDup [FOCUS_EVENT mdc_inputStrings; BLUR_EVENT mdc_inputStrings;
         PRESSED_EVENT mdc_inputStrings]
  ∧ (evt_type evt = FOCUS_EVENT mdc_inputStrings →
     dispatch input evt s1 = step mdc_cssClasses mdc_strings mdc_inputStrings Focus s1)
  ∧ (evt_type evt = BLUR_EVENT mdc_inputStrings →
     dispatch input evt s1 = step mdc_cssClasses mdc_strings mdc_inputStrings Blur s1)
  ∧ (evt_type evt = PRESSED_EVENT mdc_inputStrings →
     dispatch input evt s1
     = step mdc_cssClasses mdc_strings mdc_inputStrings (Pressed evt) s1)
  ∧ (evt_type evt = "click" ∨ evt_type evt = "keydown" →
     dispatch root evt s1
     = step mdc_cssClasses mdc_strings mdc_inputStrings (Interaction evt) s1)
  ∧ (evt_type evt = "transitionend" →
     dispatch bottomLine evt s1
     = step mdc_cssClasses mdc_strings mdc_inputStrings (TransitionEnd evt) s1).
Proof.
  cbv zeta.
  assert (Hnd : NoDup [FOCUS_EVENT mdc_inputStrings; BLUR_EVENT mdc_inputStrings;
                       PRESSED_EVENT mdc_inputStrings]).
  { apply (bool_decide_unpack _). vm_compute. exact I. }
  split; [exact Hnd|].
  exact (init_wires_each_event_to_its_handler mdc_cssClasses mdc_strings mdc_inputStrings
           page (inputEvent "focus") eq_refl eq_refl eq_refl Hnd).
Defined.

(** [init()] and [destroy()] on a fresh page, then a click. *)
Lemma destroy_unwires_what_init_wired_witness :
  let s := mkSt (new (hostAdapter mdc_strings)) page in
  let evt := click (iconTarget mdc_cssClasses) in
  let s2 := steps mdc_cssClasses mdc_strings mdc_inputStrings [Init; Destroy] s in
  let dispatch := dispatchEvent mdc_cssClasses mdc_strings in
  listeners (input (host s2)) = []
  ∧ listeners (root (host s2)) = []
  ∧ listeners (bottomLine (host s2)) = []
  ∧ dispatch input evt s2 = s2 ∧ dispatch root evt s2 = s2 ∧ dispatch bottomLine evt s2 = s2.
Proof.
  exact (destroy_unwires_what_init_wired mdc_cssClasses mdc_strings mdc_inputStrings
           (mkSt (new (hostAdapter mdc_strings)) page) (click (iconTarget mdc_cssClasses))
           eq_refl eq_refl eq_refl eq_refl).
Defined.
